(** * detectify-tf: the request-authentication layer of the provider

    A shallow embedding of [internal/provider/provider.go]: the provider's
    [Configure], the custom [transport] with its [RoundTrip], and
    [CalculateSignature], together with executable models of the Go
    standard-library functions they call ([encoding/base64], [crypto/sha256],
    [crypto/hmac], [strconv.FormatInt], [fmt.Sprintf], [http.Header.Set]). *)

From stdpp Require Import gmap strings list fin_maps.
From Stdlib Require Import ZArith Ascii Strings.Byte DecimalString DecimalZ.
From coqutil Require Import Z.bitblast.

Open Scope Z_scope.

(** ** Bytes and text

    A Go [string] is a sequence of bytes; [[]byte(s)] and [string(b)] are the
    two conversions.  Text is a Rocq [string], binary data a [list byte]. *)

Module Bytes.

Definition to_Z (b : byte) : Z := Z.of_N (Byte.to_N b).

(** [byte(x)] on an unsigned integer: the low eight bits. *)
Definition of_Z (x : Z) : byte :=
  default x00 (Byte.of_N (Z.to_N (Z.land x 255))).

Definition of_string (s : string) : list byte := String.list_byte_of_string s.

Definition code (c : ascii) : Z := Z.of_N (N_of_ascii c).

Definition char (x : Z) : ascii := ascii_of_N (Z.to_N x).

End Bytes.

(** ** [encoding/base64], the [StdEncoding] value

    Standard alphabet of RFC 4648, padding character ['='], not strict. *)

Module base64.

Definition encodeStd : string :=
  "ABCDEFGHIJKLMNOPQRSTUVWXYZabcdefghijklmnopqrstuvwxyz0123456789+/".

Definition StdPadding : ascii := "="%char.

(** [type CorruptInputError int64]; the number is the offset of the
    offending input byte. *)
Inductive error := CorruptInputError (offset : Z).

Fixpoint index_from (i : Z) (c : ascii) (alphabet : string) : option Z :=
  match alphabet with
  | EmptyString => None
  | String a rest => if Ascii.eqb a c then Some i else index_from (i + 1) c rest
  end.

(** [enc.decodeMap[in]]; [None] stands for the entry [0xff]. *)
Definition decodeMap (c : ascii) : option Z := index_from 0 c encodeStd.

Definition encodeChar (x : Z) : ascii :=
  default "A"%char (String.get (Z.to_nat (Z.land x 63)) encodeStd).

Definition is_newline (c : ascii) : bool :=
  Ascii.eqb c "010"%char || Ascii.eqb c "013"%char.

(** The three bytes of a quantum: [val] is the four sextets packed into
    24 bits; only the first [dlen - 1] bytes are written. *)
Definition quantum (dbuf : list Z) : list byte :=
  let d i := nth i dbuf 0 in
  let val := Z.lor (Z.lor (Z.lor (Z.shiftl (d 0%nat) 18) (Z.shiftl (d 1%nat) 12))
                          (Z.shiftl (d 2%nat) 6)) (d 3%nat) in
  take (length dbuf - 1)
       [Bytes.of_Z (Z.shiftr val 16); Bytes.of_Z (Z.shiftr val 8); Bytes.of_Z val].

(** [for si < len(src) && (src[si] == '\n' || src[si] == '\r') { si++ }] *)
Fixpoint skip_newlines (src : string) (si : Z) : string * Z :=
  match src with
  | String c rest => if is_newline c then skip_newlines rest (si + 1) else (src, si)
  | EmptyString => (src, si)
  end.

(** After the padding of the last quantum: anything left but newlines is
    trailing garbage.  The bytes of the quantum are returned either way. *)
Definition after_padding (src : string) (si : Z) (dbuf : list Z)
  : list byte * option error :=
  match skip_newlines src si with
  | (EmptyString, _) => (quantum dbuf, None)
  | (String _ _, si') => (quantum dbuf, Some (CorruptInputError si'))
  end.

(** [Decode], one input byte at a time: [src] is what is left of the
    input, [si] the index of its first byte, and [dbuf] the sextets of the
    current quantum read so far ([j = length dbuf]).  The result is the
    pair [(dbuf[:n], err)] that [DecodeString] returns. *)
Fixpoint decode (src : string) (si : Z) (dbuf : list Z) : list byte * option error :=
  match src with
  | EmptyString =>
      match dbuf with
      | [] => ([], None)
      | _ => ([], Some (CorruptInputError (si - Z.of_nat (length dbuf))))
      end
  | String c rest =>
      match decodeMap c with
      | Some out =>
          let dbuf' := dbuf ++ [out] in
          if (length dbuf' =? 4)%nat
          then let '(bs, err) := decode rest (si + 1) [] in (quantum dbuf' ++ bs, err)
          else decode rest (si + 1) dbuf'
      | None =>
          if is_newline c then decode rest (si + 1) dbuf
          else if negb (Ascii.eqb c StdPadding) then ([], Some (CorruptInputError si))
          else match length dbuf with
               | 0%nat | 1%nat => ([], Some (CorruptInputError si))
               | 2%nat =>
                   match skip_newlines rest (si + 1) with
                   | (EmptyString, si') => ([], Some (CorruptInputError si'))
                   | (String c' rest', si') =>
                       if negb (Ascii.eqb c' StdPadding)
                       then ([], Some (CorruptInputError (si' - 1)))
                       else after_padding rest' (si' + 1) dbuf
                   end
               | _ => after_padding rest (si + 1) dbuf
               end
      end
  end.

Definition DecodeString (s : string) : list byte * option error := decode s 0 [].

(** [Encode]: three bytes give four characters; a remainder of one or two
    bytes is padded with ['=']. *)
Fixpoint encode (src : list byte) : string :=
  match src with
  | [] => EmptyString
  | [b0] =>
      let val := Z.shiftl (Bytes.to_Z b0) 16 in
      String (encodeChar (Z.shiftr val 18)) (String (encodeChar (Z.shiftr val 12))
        (String StdPadding (String StdPadding EmptyString)))
  | [b0; b1] =>
      let val := Z.lor (Z.shiftl (Bytes.to_Z b0) 16) (Z.shiftl (Bytes.to_Z b1) 8) in
      String (encodeChar (Z.shiftr val 18)) (String (encodeChar (Z.shiftr val 12))
        (String (encodeChar (Z.shiftr val 6)) (String StdPadding EmptyString)))
  | b0 :: b1 :: b2 :: rest =>
      let val := Z.lor (Z.lor (Z.shiftl (Bytes.to_Z b0) 16) (Z.shiftl (Bytes.to_Z b1) 8))
                       (Bytes.to_Z b2) in
      String (encodeChar (Z.shiftr val 18)) (String (encodeChar (Z.shiftr val 12))
        (String (encodeChar (Z.shiftr val 6)) (String (encodeChar val) (encode rest))))
  end.

Definition EncodeToString (src : list byte) : string := encode src.

(** [func (e CorruptInputError) Error() string] *)
Definition Error (e : error) : string :=
  match e with
  | CorruptInputError off =>
      "illegal base64 data at input byte " +:+ NilEmpty.string_of_int (Z.to_int off)
  end.

End base64.

(** ** [crypto/sha256] (FIPS 180-4) *)

Module sha256.

Definition BlockSize : Z := 64.
Definition Size : Z := 32.

(** 32-bit words are integers in [[0, 2^32)]; sums wrap around. *)
Definition w32 (x : Z) : Z := Z.land x 4294967295.
Definition add32 (x y : Z) : Z := w32 (x + y).
Definition rotr (n x : Z) : Z := Z.lor (Z.shiftr x n) (w32 (Z.shiftl x (32 - n))).
Definition not32 (x : Z) : Z := Z.lxor x 4294967295.

Definition Ch (x y z : Z) : Z := Z.lxor (Z.land x y) (Z.land (not32 x) z).
Definition Maj (x y z : Z) : Z := Z.lxor (Z.lxor (Z.land x y) (Z.land x z)) (Z.land y z).
Definition bsig0 (x : Z) : Z := Z.lxor (Z.lxor (rotr 2 x) (rotr 13 x)) (rotr 22 x).
Definition bsig1 (x : Z) : Z := Z.lxor (Z.lxor (rotr 6 x) (rotr 11 x)) (rotr 25 x).
Definition ssig0 (x : Z) : Z := Z.lxor (Z.lxor (rotr 7 x) (rotr 18 x)) (Z.shiftr x 3).
Definition ssig1 (x : Z) : Z := Z.lxor (Z.lxor (rotr 17 x) (rotr 19 x)) (Z.shiftr x 10).

(** The round constants are the first 32 bits of the fractional parts of
    the cube roots of the first 64 primes, the initial hash value those of
    the square roots of the first 8 primes. *)
Definition is_prime (n : Z) : bool :=
  forallb (fun d => negb (n mod d =? 0)) (map Z.of_nat (seq 2 (Z.to_nat n - 2))).

Definition primes : list Z :=
  Eval vm_compute in filter (fun n => is_prime n) (map Z.of_nat (seq 2 310)).

(** Largest [r] with [r^3 <= n], one bit at a time from bit 39 down. *)
Definition cube_root (n : Z) : Z :=
  fold_left (fun r i => let r' := r + Z.shiftl 1 (Z.of_nat i) in
                        if r' * r' * r' <=? n then r' else r)
            (rev (seq 0 40)) 0.

Definition _K : list Z :=
  Eval vm_compute in map (fun p => w32 (cube_root (p * 2 ^ 96))) primes.

Definition init : list Z :=
  Eval vm_compute in map (fun p => w32 (Z.sqrt (p * 2 ^ 64))) (take 8 primes).

(** Big-endian words of a block. *)
Fixpoint words (bs : list byte) : list Z :=
  match bs with
  | b0 :: b1 :: b2 :: b3 :: rest =>
      Z.lor (Z.lor (Z.lor (Z.shiftl (Bytes.to_Z b0) 24) (Z.shiftl (Bytes.to_Z b1) 16))
                   (Z.shiftl (Bytes.to_Z b2) 8)) (Bytes.to_Z b3) :: words rest
  | _ => []
  end.

Definition word_bytes (x : Z) : list byte :=
  [Bytes.of_Z (Z.shiftr x 24); Bytes.of_Z (Z.shiftr x 16); Bytes.of_Z (Z.shiftr x 8);
   Bytes.of_Z x].

(** The message schedule: [w] holds the words computed so far, newest
    last; each step adds [W_t] from [W_(t-2)], [W_(t-7)], [W_(t-15)] and
    [W_(t-16)]. *)
Fixpoint schedule (n : nat) (w : list Z) : list Z :=
  match n with
  | O => w
  | S n' =>
      let t := length w in
      let at_back k := nth (t - k) w 0 in
      schedule n' (w ++ [add32 (add32 (ssig1 (at_back 2%nat)) (at_back 7%nat))
                               (add32 (ssig0 (at_back 15%nat)) (at_back 16%nat))])
  end.

Definition round (h : list Z) (kw : Z * Z) : list Z :=
  match h with
  | [a; b; c; d; e; f; g; hh] =>
      let t1 := add32 (add32 (add32 (add32 hh (bsig1 e)) (Ch e f g)) kw.1) kw.2 in
      let t2 := add32 (bsig0 a) (Maj a b c) in
      [add32 t1 t2; a; b; c; add32 d t1; e; f; g]
  | _ => h
  end.

(** One 64-byte block. *)
Definition block (h : list Z) (p : list byte) : list Z :=
  let w := schedule 48 (words p) in
  zip_with add32 h (fold_left round (zip _K w) h).

Fixpoint blocks (n : nat) (h : list Z) (p : list byte) : list Z :=
  match n with
  | O => h
  | S n' => blocks n' (block h (take 64 p)) (drop 64 p)
  end.

(** Padding: a [0x80] byte, zeros up to 56 modulo 64, then the length in
    bits as a 64-bit big-endian integer. *)
Definition padding (len : Z) : list byte :=
  let zeros := Z.to_nat ((55 - len) mod 64) in
  let bits := len * 8 in
  [x80] ++ replicate zeros x00
        ++ map (fun i => Bytes.of_Z (Z.shiftr bits (8 * (7 - Z.of_nat i)))) (seq 0 8).

Definition Sum256 (data : list byte) : list byte :=
  let p := data ++ padding (Z.of_nat (length data)) in
  concat (map word_bytes (blocks (length p / 64) init p)).

End sha256.

(** ** [crypto/hmac] over SHA-256 (RFC 2104)

    [mac := hmac.New(sha256.New, key); mac.Write(m); mac.Sum(nil)]. *)

Module hmac.

Definition xor_pad (pad : Z) (key : list byte) : list byte :=
  map (fun b => Bytes.of_Z (Z.lxor (Bytes.to_Z b) pad)) key.

(** [New]: a key longer than the block size is hashed first; the key is
    then zero-extended to one block. *)
Definition block_key (key : list byte) : list byte :=
  let k := if Z.of_nat (length key) >? sha256.BlockSize then sha256.Sum256 key else key in
  k ++ replicate (Z.to_nat sha256.BlockSize - length k) x00.

Definition Sum (key message : list byte) : list byte :=
  let k := block_key key in
  sha256.Sum256 (xor_pad 92 k ++ sha256.Sum256 (xor_pad 54 k ++ message)).

End hmac.

(** ** [strconv], [time], [fmt] *)

Module strconv.

(** [FormatInt(i, 10)]: decimal digits, a leading ['-'] when negative. *)
Definition FormatInt (i : Z) : string := NilEmpty.string_of_int (Z.to_int i).

End strconv.

Module time.

(** A [time.Time] as far as this package looks at it: [Unix()] is the
    number of seconds since the epoch (an [int64]); the sub-second part
    is never read. *)
Record Time := { Unix : Z; Nanosecond : Z }.

End time.

(** ** [net/http] *)

Module http.

(** [type Header map[string][]string]. *)
Abbreviation Header := (gmap string (list string)).

Definition is_lower (c : ascii) : bool :=
  (97 <=? Bytes.code c) && (Bytes.code c <=? 122).
Definition is_upper (c : ascii) : bool :=
  (65 <=? Bytes.code c) && (Bytes.code c <=? 90).
Definition is_digit (c : ascii) : bool :=
  (48 <=? Bytes.code c) && (Bytes.code c <=? 57).

(** Token bytes of RFC 7230, the bytes a header field name may have. *)
Definition validHeaderFieldByte (c : ascii) : bool :=
  is_lower c || is_upper c || is_digit c
  || bool_decide (c ∈ String.list_ascii_of_string "!#$%&'*+-.^_`|~").

Fixpoint canonical (upper : bool) (s : string) : string :=
  match s with
  | EmptyString => EmptyString
  | String c rest =>
      let c' := if upper && is_lower c then Bytes.char (Bytes.code c - 32)
                else if negb upper && is_upper c then Bytes.char (Bytes.code c + 32)
                else c in
      String c' (canonical (Ascii.eqb c' "-"%char) rest)
  end.

(** [textproto.CanonicalMIMEHeaderKey]: the first letter and every letter
    after a hyphen in upper case, the others in lower case; a key with a
    byte that is not a token byte is returned as it is. *)
Definition CanonicalMIMEHeaderKey (s : string) : string :=
  if forallb validHeaderFieldByte (String.list_ascii_of_string s) then canonical true s else s.

(** [func (h Header) Set(key, value string)]: the entry of the canonical
    key becomes the one-element slice [[]string{value}]. *)
Definition Header_Set (h : Header) (key value : string) : Header :=
  <[CanonicalMIMEHeaderKey key := [value]]> h.

(** [url.URL], the fields that locate the resource. *)
Record URL := { Scheme : string; Host : string; Path : string; RawQuery : string }.

(** [Request.Body], an [io.ReadCloser]: [nil] for a request without a
    body, the value [http.NoBody], or some other reader.  For the last,
    [printed] is what [fmt] writes for it under the verb [%s] (for the
    readers of the standard library a rendering of the struct, pointers
    as addresses) and [payload] the bytes a read would deliver. *)
Inductive ReadCloser :=
| nilBody
| NoBody
| reader (printed : string) (payload : list byte).

Record Request := {
  Method : string;
  URL_ : URL;
  Header_ : Header;
  Body : ReadCloser;
}.

Record Response := { StatusCode : Z; ResponseBody : list byte }.

(** The method [RoundTrip] of a [RoundTripper] takes a request and returns
    the Go pair of a response and an error, either of which may be [nil]. *)
Definition RoundTripper : Type := Request → option Response * option string.

End http.

Module fmt.

(** The verb [%s] applied to a request body: [%!s(<nil>)] for the nil
    interface, [{}] for the empty struct [http.NoBody], the reader's
    rendering otherwise. *)
Definition verb_s (b : http.ReadCloser) : string :=
  match b with
  | http.nilBody => "%!s(<nil>)"
  | http.NoBody => "{}"
  | http.reader printed _ => printed
  end.

End fmt.

(** ** The effects of a send

    [RoundTrip] reads the wall clock, writes lines on standard output, writes
    into the map [t.Headers] and into the map [req.Header], hands the request
    to the wrapped round-tripper, and may panic.  A [World] holds what it can
    touch; a computation is a function from a world to a result and the world
    it leaves, the world at the panic when it panics. *)

Module provider.

(** [types.String] of the plugin framework: null, unknown or known. *)
Inductive tfString := StringNull | StringUnknown | StringValue (s : string).

(** [ValueString()]: the known value, the empty string otherwise. *)
Definition ValueString (s : tfString) : string :=
  match s with StringValue v => v | _ => "" end.

Record DetectifyProviderModel := { APIKey : tfString; Signature : tfString }.

(** [type transport struct]. *)
Record transport := {
  Transport : http.RoundTripper;
  Headers : http.Header;
  apiKey : string;
  secret : string;
  signature : string;
}.

Record World := {
  clock : nat → time.Time;      (* the n-th reading of the wall clock *)
  reads : nat;                  (* readings taken so far *)
  stdout : list string;         (* lines printed, oldest first *)
  self : transport;             (* the transport behind the pointer [t] *)
  request : http.Request;       (* the request behind the pointer [req] *)
  wire : list http.Request;     (* requests handed to [t.Transport], oldest first *)
}.

Inductive Result (A : Type) :=
| Returned (a : A)
| Panicked (v : base64.error).
Arguments Returned {A} a.
Arguments Panicked {A} v.

Definition M (A : Type) : Type := World → Result A * World.

#[global] Instance M_ret : MRet M := λ A a w, (Returned a, w).
#[global] Instance M_bind : MBind M := λ A B f m w,
  match m w with
  | (Returned a, w') => f a w'
  | (Panicked v, w') => (Panicked v, w')
  end.

Definition panic {A} (v : base64.error) : M A := λ w, (Panicked v, w).

(** Writes to one cell of the world. *)
Definition set_reads (n : nat) (w : World) : World :=
  {| clock := clock w; reads := n; stdout := stdout w; self := self w;
     request := request w; wire := wire w |}.
Definition set_stdout (out : list string) (w : World) : World :=
  {| clock := clock w; reads := reads w; stdout := out; self := self w;
     request := request w; wire := wire w |}.
Definition set_self (t : transport) (w : World) : World :=
  {| clock := clock w; reads := reads w; stdout := stdout w; self := t;
     request := request w; wire := wire w |}.
Definition set_request (r : http.Request) (w : World) : World :=
  {| clock := clock w; reads := reads w; stdout := stdout w; self := self w;
     request := r; wire := wire w |}.
Definition set_wire (rs : list http.Request) (w : World) : World :=
  {| clock := clock w; reads := reads w; stdout := stdout w; self := self w;
     request := request w; wire := rs |}.

Definition set_Headers (h : http.Header) (t : transport) : transport :=
  {| Transport := Transport t; Headers := h; apiKey := apiKey t; secret := secret t;
     signature := signature t |}.
Definition set_Header (h : http.Header) (r : http.Request) : http.Request :=
  {| http.Method := http.Method r; http.URL_ := http.URL_ r; http.Header_ := h;
     http.Body := http.Body r |}.

(** [time.Now()]. *)
Definition time_Now : M time.Time := λ w,
  (Returned (clock w (reads w)), set_reads (S (reads w)) w).

(** [fmt.Println(line)]. *)
Definition fmt_Println (line : string) : M unit := λ w,
  (Returned (), set_stdout (stdout w ++ [line]) w).

Definition get_t : M transport := λ w, (Returned (self w), w).
Definition get_req : M http.Request := λ w, (Returned (request w), w).

(** [t.Headers.Set(key, value)]: a write into the transport's own map. *)
Definition t_Headers_Set (key value : string) : M unit := λ w,
  (Returned (),
   set_self (set_Headers (http.Header_Set (Headers (self w)) key value) (self w)) w).

(** [req.Header[k] = values]. *)
Definition req_Header_store (k : string) (values : list string) : M unit := λ w,
  (Returned (),
   set_request (set_Header (<[k := values]> (http.Header_ (request w))) (request w)) w).

(** [t.Transport.RoundTrip(req)]: the wrapped round-tripper receives the
    request as it is at that moment. *)
Definition delegate : M (option http.Response * option string) := λ w,
  (Returned (Transport (self w) (request w)), set_wire (wire w ++ [request w]) w).

(** [for k, values := range m { body }]: the entries in some order. *)
Definition range (m : http.Header) (body : string → list string → M unit) : M unit :=
  map_fold (λ k values rest, body k values ≫= λ _, rest) (mret ()) m.

(** [fmt.Sprintf("%s;%s;%s;%d;%s", req.Method, req.URL.Path, apiKey,
    timestamp.Unix(), req.Body)]. *)
Definition Sprintf_value (req : http.Request) (apiKey : string) (timestamp : time.Time)
  : string :=
  http.Method req +:+ ";" +:+ http.Path (http.URL_ req) +:+ ";" +:+ apiKey +:+ ";"
    +:+ strconv.FormatInt (time.Unix timestamp) +:+ ";" +:+ fmt.verb_s (http.Body req).

(** Calculate the HMAC signature for the request. *)
Definition CalculateSignature (req : http.Request) (apiKey secretKey : string)
    (timestamp : time.Time) : M string :=
  match base64.DecodeString secretKey with
  | (_, Some err) => panic err
  | (key, None) =>
      let value := Sprintf_value req apiKey timestamp in
      fmt_Println value;;
      mret (base64.EncodeToString (hmac.Sum key (Bytes.of_string value)))
  end.

Definition RoundTrip : M (option http.Response * option string) :=
  t ← get_t;
  (if (0 <? String.length (signature t))%nat then
     ts ← time_Now;
     req ← get_req;
     signature ← CalculateSignature req (apiKey t) (secret t) ts;
     t_Headers_Set "X-Detectify-Timestamp" (strconv.FormatInt (time.Unix ts));;
     t_Headers_Set "X-Detectify-Signature" signature
   else mret ());;
  t ← get_t;
  range (Headers t) req_Header_store;;
  delegate.

(** [Configure], once the configuration has been read without error: the
    header map with the key, and the transport that replaces the one of
    [http.DefaultClient].  [DefaultTransport] is [http.DefaultTransport].
    The fields [apiKey] and [secret] are not mentioned by the composite
    literal and keep their zero value. *)
Definition Configure (DefaultTransport : http.RoundTripper) (data : DetectifyProviderModel)
  : transport :=
  let headers := http.Header_Set ∅ "X-Detectify-Key" (ValueString (APIKey data)) in
  {| Transport := DefaultTransport;
     Headers := headers;
     apiKey := "";
     secret := "";
     signature := ValueString (Signature data) |}.

End provider.

(** * Statements

    The vocabulary of the theorems below. *)

Import provider.

Definition X_Detectify_Key : string := "X-Detectify-Key".

Definition X_Detectify_Timestamp : string := "X-Detectify-Timestamp".

Definition X_Detectify_Signature : string := "X-Detectify-Signature".

(** The world after the loop
    [for k, values := range m { req.Header[k] = values }]: the entries of
    [m] win over those of the request. *)
Definition stored (m : http.Header) (w : World) : World :=
  set_request (set_Header (m ∪ http.Header_ (request w)) (request w)) w.

(** The transport after the two [t.Headers.Set] of a signed send. *)
Definition stamped (ts : time.Time) (sig : string) (t : transport) : transport :=
  set_Headers (<[X_Detectify_Signature := [sig]]>
                 (<[X_Detectify_Timestamp := [strconv.FormatInt (time.Unix ts)]]> (Headers t))) t.

(** The signature as [CalculateSignature] computes it from a decoded key. *)
Definition signature_with (key : list byte) (req : http.Request) (apiKey : string)
    (ts : time.Time) : string :=
  base64.EncodeToString (hmac.Sum key (Bytes.of_string (Sprintf_value req apiKey ts))).

(** The transports the provider ever has: the one [Configure] installs, and
    that transport after each send made through it. *)
Inductive installed (rt : http.RoundTripper) (data : DetectifyProviderModel)
  : transport → Prop :=
| installed_by_Configure : installed rt data (Configure rt data)
| installed_after_send (w : World) :
    installed rt data (self w) → installed rt data (self (RoundTrip w).2).

(** The requests a send hands to the wrapped round-tripper. *)
Definition delegated (w : World) : list http.Request :=
  drop (length (wire w)) (wire (RoundTrip w).2).

(** The canonical message of the specification: method, path, API key,
    timestamp in decimal seconds and body, in that order, with [;] between
    them. *)
Definition canonical_message (method path apiKey : string) (unix_timestamp : Z)
    (body : string) : string :=
  String.concat ";" [method; path; apiKey; strconv.FormatInt unix_timestamp; body].

(** What holds of every installed transport. *)
Record configured (rt : http.RoundTripper) (data : DetectifyProviderModel)
    (t : transport) : Prop := {
  cfg_Transport : Transport t = rt;
  cfg_apiKey : apiKey t = ""%string;
  cfg_secret : secret t = ""%string;
  cfg_signature : signature t = ValueString (Signature data);
  cfg_Key : Headers t !! X_Detectify_Key = Some [ValueString (APIKey data)];
  cfg_unsigned :
    signature t = ""%string →
    Headers t = {[X_Detectify_Key := [ValueString (APIKey data)]]};
}.

(** The Calculator does not fail: it is not called, or the secret decodes. *)
Definition calculator_succeeds (t : transport) : Prop :=
  signature t = ""%string ∨ ∃ key, base64.DecodeString (secret t) = (key, None).

Definition carries (k : string) (r : http.Request) : Prop :=
  is_Some (http.Header_ r !! k).

Module sample.

Definition ok : http.RoundTripper :=
  λ _, (Some {| http.StatusCode := 200; http.ResponseBody := [] |}, None).

Definition assets (h : http.Header) (b : http.ReadCloser) : http.Request :=
  {| http.Method := "GET";
     http.URL_ := {| http.Scheme := "https"; http.Host := "api.detectify.com";
                     http.Path := "/v2/assets"; http.RawQuery := "" |};
     http.Header_ := h;
     http.Body := b |}.

Definition at_path (path : string) : http.Request :=
  {| http.Method := "GET";
     http.URL_ := {| http.Scheme := "https"; http.Host := "api.detectify.com";
                     http.Path := path; http.RawQuery := "" |};
     http.Header_ := ∅;
     http.Body := http.NoBody |}.

Definition instant : time.Time := {| time.Unix := 1700000000; time.Nanosecond := 0 |}.

Definition world (t : transport) (req : http.Request) : World :=
  {| clock := λ _, instant; reads := 0; stdout := []; self := t; request := req;
     wire := [] |}.

Definition hmac_mode : DetectifyProviderModel :=
  {| APIKey := StringValue "abc123"; Signature := StringValue "c2VjcmV0" |}.

Definition key_mode : DetectifyProviderModel :=
  {| APIKey := StringValue "abc123"; Signature := StringNull |}.

(** A transport written as a composite literal with every field given. *)
Definition by_hand (secret : string) : transport :=
  {| Transport := ok; Headers := ∅; apiKey := "abc123"; secret := secret;
     signature := "on" |}.

Definition forged : http.Header :=
  {[ X_Detectify_Timestamp := ["0"%string]; X_Detectify_Signature := ["forged"%string] ]}.

End sample.

(** The five signed fields of a call of [CalculateSignature]. *)
Definition signed_fields (req : http.Request) (apiKey : string) (ts : time.Time)
  : string * string * string * Z * string :=
  (http.Method req, http.Path (http.URL_ req), apiKey, time.Unix ts,
   fmt.verb_s (http.Body req)).

(** Two tuples of fields that differ in one component and agree on the
    four others. *)
Definition one_component_apart (a b : string * string * string * Z * string) : Prop :=
  let '(m1, p1, k1, t1, b1) := a in
  let '(m2, p2, k2, t2, b2) := b in
  (m1 ≠ m2 ∧ p1 = p2 ∧ k1 = k2 ∧ t1 = t2 ∧ b1 = b2)
  ∨ (m1 = m2 ∧ p1 ≠ p2 ∧ k1 = k2 ∧ t1 = t2 ∧ b1 = b2)
  ∨ (m1 = m2 ∧ p1 = p2 ∧ k1 ≠ k2 ∧ t1 = t2 ∧ b1 = b2)
  ∨ (m1 = m2 ∧ p1 = p2 ∧ k1 = k2 ∧ t1 ≠ t2 ∧ b1 = b2)
  ∨ (m1 = m2 ∧ p1 = p2 ∧ k1 = k2 ∧ t1 = t2 ∧ b1 ≠ b2).

(** Injectivity of the canonical form as the specification words it:
    distinct tuples have distinct canonical messages. *)
Definition distinct_fields_distinct_messages : Prop :=
  ∀ req1 req2 apiKey1 apiKey2 ts1 ts2,
    signed_fields req1 apiKey1 ts1 ≠ signed_fields req2 apiKey2 ts2 →
    Sprintf_value req1 apiKey1 ts1 ≠ Sprintf_value req2 apiKey2 ts2.

(** The header invariant as the specification words it: the request that
    leaves carries the timestamp and signature headers exactly when signing
    mode is on, and the key header always. *)
Definition signing_headers_iff_signing_mode (w : World) : Prop :=
  ∀ out, delegated w = [out] →
    (carries X_Detectify_Timestamp out ∧ carries X_Detectify_Signature out
     ↔ signature (self w) ≠ ""%string)
    ∧ carries X_Detectify_Key out.

(** The frame of a send as the specification words it: a send writes nothing
    but the request's headers (and reads the clock). *)
Definition only_request_headers_written (w : World) : Prop :=
  let w' := (RoundTrip w).2 in
  self w' = self w ∧ stdout w' = stdout w.

(** The same world with other values in the two secret-bearing fields of
    the transport. *)
Definition with_secrets (secret signature : string) (w : World) : World :=
  set_self {| Transport := Transport (self w); Headers := Headers (self w);
              apiKey := apiKey (self w); secret := secret; signature := signature |} w.

(** ** Further vocabulary: decoding outcomes, runs of sends, the life cycle *)

(** [s] without its carriage returns and line feeds. *)
Fixpoint strip_newlines (s : string) : string :=
  match s with
  | EmptyString => EmptyString
  | String c rest =>
      if base64.is_newline c then strip_newlines rest else String c (strip_newlines rest)
  end.

(** The same result of a decoding with every offset moved by [d]. *)
Definition shifted (d : Z) (r : list byte * option base64.error) : list byte * option base64.error :=
  match r with
  | (bs, Some (base64.CorruptInputError off)) => (bs, Some (base64.CorruptInputError (off + d)))
  | (bs, None) => (bs, None)
  end.

(** Two results of a decoding that agree but for the offset of the error. *)
Definition same_outcome (r1 r2 : list byte * option base64.error) : Prop :=
  r1.1 = r2.1 ∧ (r1.2 = None ↔ r2.2 = None).

(** A caller that sends the requests of a list one after the other through
    the same transport, each as the request behind [req]; a panic ends the
    run.  The result is the list of the pairs the sends returned. *)
Fixpoint send_all (reqs : list http.Request)
  : M (list (option http.Response * option string)) :=
  match reqs with
  | [] => mret []
  | req :: rest =>
      r ← (λ w, RoundTrip (set_request req w));
      rs ← send_all rest;
      mret (r :: rs)
  end.

(** The three header names the transport ever writes. *)
Definition authentication_headers : gset string :=
  {[X_Detectify_Key; X_Detectify_Timestamp; X_Detectify_Signature]}.

(** ** The provider's [Configure] as the plugin framework calls it

    The framework hands [Configure] the configuration and a response to fill;
    [Configure] also writes the [Transport] field of the process-wide
    [http.DefaultClient]. *)

Module lifecycle.

(** [diag.Diagnostic]: a severity, a summary and a detail. *)
Inductive Severity := SeverityError | SeverityWarning.

Record Diagnostic := { severity : Severity; summary : string; detail : string }.

#[global] Instance Severity_eq_dec : EqDecision Severity.
Proof. solve_decision. Defined.

#[global] Instance Diagnostic_eq_dec : EqDecision Diagnostic.
Proof. solve_decision. Defined.

(** [Diagnostics.HasError]: some diagnostic has the severity of an error. *)
Definition HasError (diags : list Diagnostic) : bool :=
  existsb (λ d, bool_decide (severity d = SeverityError)) diags.

(** [Diagnostics.Append]: each new diagnostic is added at the end unless the
    collection already contains an equal one. *)
Definition Append (diags new : list Diagnostic) : list Diagnostic :=
  fold_left (λ acc d, if bool_decide (d ∈ acc) then acc else acc ++ [d]) new diags.

(** [*http.Client]: the only client there is, [http.DefaultClient]. *)
Inductive ClientPtr := DefaultClient.

(** [DetectifyProviderData]. *)
Record DetectifyProviderData := { Client : ClientPtr; Signature : string }.

(** [provider.ConfigureResponse], the fields [Configure] writes. *)
Record ConfigureResponse := {
  Diagnostics : list Diagnostic;
  DataSourceData : option DetectifyProviderData;
  ResourceData : option DetectifyProviderData;
}.

(** The [Transport] field of [http.DefaultClient]; [None] is [nil]. *)
Record Process := { DefaultClient_Transport : option transport }.

(** [Configure]: [got] is what [req.Config.Get(ctx, &data)] delivers, the
    model read and the diagnostics of the reading; the header map and the
    composite literal of the transport are [provider.Configure]. *)
Definition Configure (DefaultTransport : http.RoundTripper)
    (got : DetectifyProviderModel * list Diagnostic)
    (resp : ConfigureResponse) (p : Process) : ConfigureResponse * Process :=
  let data := got.1 in
  let diags := Append (Diagnostics resp) got.2 in
  if HasError diags then
    ({| Diagnostics := diags; DataSourceData := DataSourceData resp;
        ResourceData := ResourceData resp |}, p)
  else
    let client_Transport := provider.Configure DefaultTransport data in
    let providerData :=
      {| Client := DefaultClient; Signature := ValueString (provider.Signature data) |} in
    ({| Diagnostics := diags; DataSourceData := Some providerData;
        ResourceData := Some providerData |},
     {| DefaultClient_Transport := Some client_Transport |}).

(** The round-tripper a client sends through: the transport of the default
    client. *)
Definition transport_of (c : ClientPtr) (p : Process) : option transport :=
  match c with DefaultClient => DefaultClient_Transport p end.

End lifecycle.

(** * Test vectors of the library models *)

Example sha256_abc :
  base64.EncodeToString (sha256.Sum256 (Bytes.of_string "abc"))
  = "ungWv48Bz+pBQUDeXa4iI7ADYaOWF3qctBD/YfIAFa0="%string.
Proof. vm_compute. reflexivity. Qed.

Example sha256_round_constants :
  nth 0 sha256._K 0 = 0x428a2f98 /\ nth 63 sha256._K 0 = 0xc67178f2
  /\ length sha256._K = 64%nat /\ nth 0 sha256.init 0 = 0x6a09e667.
Proof. vm_compute. auto. Qed.

Example hmac_rfc4231_case6 :
  base64.EncodeToString
    (hmac.Sum (replicate 131 xaa)
              (Bytes.of_string "Test Using Larger Than Block-Size Key - Hash Key First"))
  = "YOQxWR7gtn8Niiaqy/W3f44LxiE3KMUUBUYEDw7jf1Q="%string.
Proof. vm_compute. reflexivity. Qed.

Example base64_rfc4648 :
  map base64.EncodeToString (map Bytes.of_string ["f"; "fo"; "foo"; "foob"]%string)
  = ["Zg=="; "Zm8="; "Zm9v"; "Zm9vYg=="]%string
  /\ map base64.DecodeString ["Zg=="; "Zm8="; "Zm9v"; "Zm9vYg=="]%string
    = map (fun s => (Bytes.of_string s, None)) ["f"; "fo"; "foo"; "foob"]%string.
Proof. vm_compute. auto. Qed.

Example base64_corrupt_inputs :
  map base64.DecodeString ["not-base64!!"; "YQ="; "YQ"; "YQ=x"; "="]%string
  = [([], Some (base64.CorruptInputError 3)); ([], Some (base64.CorruptInputError 3));
     ([], Some (base64.CorruptInputError 0)); ([], Some (base64.CorruptInputError 2));
     ([], Some (base64.CorruptInputError 0))].
Proof. vm_compute. reflexivity. Qed.

(** * Theorems *)

Lemma World_eta (w : World) :
  w = {| clock := clock w; reads := reads w; stdout := stdout w; self := self w;
         request := request w; wire := wire w |}.
Proof. by destruct w. Qed.

Lemma Request_eta (r : http.Request) : set_Header (http.Header_ r) r = r.
Proof. by destruct r. Qed.

Lemma signing_test (s : string) : (0 <? String.length s)%nat = true ↔ s ≠ ""%string.
Proof. destruct s; simpl; split; try done. Qed.

Lemma signing_test_false (s : string) : (0 <? String.length s)%nat = false ↔ s = ""%string.
Proof. destruct s; simpl; split; try done. Qed.

Lemma Header_Set_canonical (h : http.Header) (k v : string) :
  http.CanonicalMIMEHeaderKey k = k → http.Header_Set h k v = <[k := [v]]> h.
Proof. unfold http.Header_Set. by intros ->. Qed.

Lemma range_store (m : http.Header) (w : World) :
  range m req_Header_store w = (Returned (), stored m w).
Proof.
  revert w. unfold range.
  apply (map_fold_weak_ind
           (λ (r : M unit) (m : http.Header), ∀ w, r w = (Returned (), stored m w))).
  - intros w. unfold stored. rewrite (left_id_L ∅ (∪)), Request_eta. by destruct w.
  - intros i x m' r Hi IH w. unfold mbind, M_bind, req_Header_store. simpl.
    rewrite IH. unfold stored. simpl. by rewrite <- insert_union_r, insert_union_l.
Qed.

Lemma RoundTrip_unsigned (w : World) :
  signature (self w) = ""%string →
  RoundTrip w = delegate (stored (Headers (self w)) w).
Proof.
  intros E. unfold RoundTrip, mbind, M_bind, get_t. simpl.
  rewrite (proj2 (signing_test_false _) E). simpl.
  by rewrite range_store.
Qed.

Lemma RoundTrip_signed (w : World) (key : list byte) :
  signature (self w) ≠ ""%string →
  base64.DecodeString (secret (self w)) = (key, None) →
  let ts := clock w (reads w) in
  let sig := signature_with key (request w) (apiKey (self w)) ts in
  let t' := stamped ts sig (self w) in
  RoundTrip w =
    delegate (stored (Headers t')
                (set_self t' (set_stdout (stdout w ++ [Sprintf_value (request w) (apiKey (self w)) ts])
                                (set_reads (S (reads w)) w)))).
Proof.
  intros E D. unfold RoundTrip, mbind, M_bind, get_t. simpl.
  rewrite (proj2 (signing_test _) E). unfold time_Now, get_req, CalculateSignature. simpl.
  rewrite D. unfold mbind, M_bind, fmt_Println, mret, M_ret, t_Headers_Set. simpl.
  by rewrite range_store.
Qed.

Lemma RoundTrip_panics (w : World) (bs : list byte) (err : base64.error) :
  signature (self w) ≠ ""%string →
  base64.DecodeString (secret (self w)) = (bs, Some err) →
  RoundTrip w = (Panicked err, set_reads (S (reads w)) w).
Proof.
  intros E D. unfold RoundTrip, mbind, M_bind, get_t. simpl.
  rewrite (proj2 (signing_test _) E). unfold time_Now, get_req, CalculateSignature. simpl.
  by rewrite D.
Qed.

Lemma append_length (s t : string) :
  String.length (s +:+ t) = (String.length s + String.length t)%nat.
Proof. induction s as [|c s IH]; simpl; [done | by rewrite IH]. Qed.

Lemma append_inj_r (t s1 s2 : string) : s1 +:+ t = s2 +:+ t → s1 = s2.
Proof.
  revert s2. induction s1 as [|c s1 IH]; intros [|c' s2] E; simpl in E.
  - done.
  - apply (f_equal String.length) in E. rewrite !append_length in E. simpl in E. lia.
  - apply (f_equal String.length) in E. rewrite !append_length in E. simpl in E. lia.
  - injection E as -> E. f_equal. by apply IH.
Qed.

Lemma FormatInt_inj (x y : Z) : strconv.FormatInt x = strconv.FormatInt y → x = y.
Proof.
  unfold strconv.FormatInt. intros E. apply to_int_inj.
  pose proof (NilEmpty.isi (Z.to_int x)) as Hx.
  pose proof (NilEmpty.isi (Z.to_int y)) as Hy.
  rewrite E in Hx. congruence.
Qed.

Lemma DecodeString_empty : base64.DecodeString "" = ([], None).
Proof. reflexivity. Qed.

Lemma installed_configured rt data t : installed rt data t → configured rt data t.
Proof.
  induction 1 as [|w Hw IH].
  - by split.
  - destruct (decide (signature (self w) = ""%string)) as [E|E].
    + rewrite RoundTrip_unsigned by done. exact IH.
    + assert (D : base64.DecodeString (secret (self w)) = ([], None))
        by (by rewrite (cfg_secret _ _ _ IH)).
      rewrite (RoundTrip_signed w [] E D). simpl.
      destruct IH as [H1 H2 H3 H4 H5 H6]. split; simpl; try done.
      by rewrite !lookup_insert_ne.
Qed.

(** C1.  For every request (method, URL path, body), API key, timestamp and
    every secret key that [base64.StdEncoding] decodes without error,
    [CalculateSignature] returns the standard base64 encoding of the
    HMAC-SHA256, keyed with the decoded secret, of the canonical message
    [method;path;apiKey;unix_timestamp;body]: the five fields in that order,
    [;] between them, the timestamp as decimal seconds, the path being
    [req.URL.Path] alone (scheme, host and query are not read), and the body
    being what [%s] prints for [req.Body].  It also prints that message. *)
Theorem CalculateSignature_is_hmac_of_canonical_message
    (req : http.Request) (apiKey secretKey : string) (timestamp : time.Time)
    (key : list byte) (w : World) :
  base64.DecodeString secretKey = (key, None) →
  let message :=
    canonical_message (http.Method req) (http.Path (http.URL_ req)) apiKey
                      (time.Unix timestamp) (fmt.verb_s (http.Body req)) in
  CalculateSignature req apiKey secretKey timestamp w
  = (Returned (base64.EncodeToString (hmac.Sum key (Bytes.of_string message))),
     set_stdout (stdout w ++ [message]) w).
Proof. intros D. unfold CalculateSignature. by rewrite D. Qed.

(** C3.  When the secret key does not decode, [CalculateSignature] panics
    with the decoding error and has done nothing else (nothing printed, no
    HMAC result); through [RoundTrip] the panic reaches the caller with the
    request and the transport's header map as they were, and nothing handed
    to the wrapped round-tripper. *)
Theorem invalid_secret_panics_before_any_header
    (secretKey : string) (bs : list byte) (err : base64.error) :
  base64.DecodeString secretKey = (bs, Some err) →
  (∀ req apiKey timestamp w,
     CalculateSignature req apiKey secretKey timestamp w = (Panicked err, w))
  ∧ (∀ w, signature (self w) ≠ ""%string → secret (self w) = secretKey →
          ∃ w', RoundTrip w = (Panicked err, w')
                ∧ request w' = request w ∧ self w' = self w
                ∧ delegated w = [] ∧ wire w' = wire w ∧ stdout w' = stdout w).
Proof.
  intros D. split.
  - intros req apiKey ts w. unfold CalculateSignature. by rewrite D.
  - intros w E <-. eexists. split; [by apply (RoundTrip_panics w bs err)|].
    unfold delegated. rewrite (RoundTrip_panics w bs err) by done. simpl.
    by rewrite drop_all.
Qed.

(** C10.  The empty secret key decodes to the empty byte string, so
    [CalculateSignature] with it returns the signature keyed with no bytes;
    every installed transport has the empty [secret], and no send through it
    panics. *)
Theorem empty_secret_never_fails :
  base64.DecodeString "" = ([], None)
  ∧ (∀ req apiKey timestamp w,
       CalculateSignature req apiKey "" timestamp w
       = (Returned (signature_with [] req apiKey timestamp),
          set_stdout (stdout w ++ [Sprintf_value req apiKey timestamp]) w))
  ∧ (∀ rt data w, installed rt data (self w) →
       secret (self w) = ""%string
       ∧ ∃ r w', RoundTrip w = (Returned r, w')).
Proof.
  split; [done|]. split; [done|].
  intros rt data w I. pose proof (installed_configured _ _ _ I) as C.
  split; [apply C|].
  destruct (decide (signature (self w) = ""%string)) as [E|E].
  - rewrite RoundTrip_unsigned by done. by eexists _, _.
  - assert (D : base64.DecodeString (secret (self w)) = ([], None))
      by (by rewrite (cfg_secret _ _ _ C)).
    rewrite (RoundTrip_signed w [] E D). by eexists _, _.
Qed.

Lemma RoundTrip_returns (w : World) :
  calculator_succeeds (self w) →
  ∃ t' w',
    let out := set_Header (Headers t' ∪ http.Header_ (request w)) (request w) in
    RoundTrip w = (Returned (Transport (self w) out), w')
    ∧ self w' = t' ∧ request w' = out ∧ wire w' = wire w ++ [out]
    ∧ delegated w = [out]
    ∧ (signature (self w) = ""%string ∧ t' = self w
       ∨ signature (self w) ≠ ""%string
         ∧ ∃ key, base64.DecodeString (secret (self w)) = (key, None)
                  ∧ t' = stamped (clock w (reads w))
                           (signature_with key (request w) (apiKey (self w))
                              (clock w (reads w)))
                           (self w)).
Proof.
  intros Hok. unfold delegated.
  destruct (decide (signature (self w) = ""%string)) as [E|E].
  - rewrite RoundTrip_unsigned by done. eexists (self w), _. simpl.
    repeat split; [apply drop_app_length | by left].
  - destruct Hok as [?|[key D]]; [done|].
    rewrite (RoundTrip_signed w key E D).
    eexists (stamped (clock w (reads w))
               (signature_with key (request w) (apiKey (self w)) (clock w (reads w)))
               (self w)), _.
    simpl. repeat split; [apply drop_app_length | right; eauto].
Qed.

(** C7.  A send whose Calculator does not fail hands the request to the
    wrapped round-tripper exactly once and returns that round-tripper's pair
    of response and error as it is; the request's method, URL and body are
    unchanged, and so is every header whose name is not in the transport's
    header map when it is applied (that is, not in the map at the call and
    not one of the two signing headers). *)
Theorem send_delegates_once_and_leaves_the_rest (w : World) :
  calculator_succeeds (self w) →
  ∃ out w',
    RoundTrip w = (Returned (Transport (self w) out), w')
    ∧ delegated w = [out]
    ∧ request w' = out
    ∧ http.Method out = http.Method (request w)
    ∧ http.URL_ out = http.URL_ (request w)
    ∧ http.Body out = http.Body (request w)
    ∧ (∀ k, Headers (self w') !! k = None →
            http.Header_ out !! k = http.Header_ (request w) !! k)
    ∧ (∀ k, Headers (self w) !! k = None →
            k ≠ X_Detectify_Timestamp → k ≠ X_Detectify_Signature →
            http.Header_ out !! k = http.Header_ (request w) !! k).
Proof.
  intros Hok. destruct (RoundTrip_returns w Hok) as (t' & w' & R & St & Rq & _ & Dl & Cases).
  eexists _, w'. split; [exact R|]. split; [exact Dl|]. split; [exact Rq|].
  simpl. repeat split.
  - intros k Hk. rewrite St in Hk. by apply lookup_union_r.
  - intros k Hk Hts Hsig. apply lookup_union_r.
    destruct Cases as [[_ ->]|(_ & key & _ & ->)]; [done|].
    simpl. by rewrite !lookup_insert_ne.
Qed.

(** C8.  For every installed transport and every request, each header that
    [Configure] put in the header map is on the request that leaves, with
    the configured value, whatever the caller had set under that name. *)
Theorem static_headers_take_precedence
    (rt : http.RoundTripper) (data : DetectifyProviderModel) (w : World) :
  installed rt data (self w) →
  ∃ out w',
    RoundTrip w = (Returned (rt out), w')
    ∧ delegated w = [out]
    ∧ ∀ k values,
        Headers (Configure rt data) !! k = Some values →
        http.Header_ out !! k = Some values.
Proof.
  intros I. pose proof (installed_configured _ _ _ I) as C.
  assert (Hok : calculator_succeeds (self w)).
  { right. exists []. by rewrite (cfg_secret _ _ _ C). }
  destruct (RoundTrip_returns w Hok) as (t' & w' & R & St & Rq & _ & Dl & Cases).
  rewrite (cfg_Transport _ _ _ C) in R.
  eexists _, w'. split; [exact R|]. split; [exact Dl|].
  intros k values Hk. simpl in Hk. rewrite Header_Set_canonical in Hk by done.
  apply lookup_insert_Some in Hk as [[<- <-]|[_ Hk]]; [|by rewrite lookup_empty in Hk].
  simpl. apply lookup_union_Some_l.
  destruct Cases as [[_ ->]|(_ & key & _ & ->)]; [apply C|].
  simpl. rewrite !lookup_insert_ne by done. apply C.
Qed.

Lemma Sprintf_value_canonical req apiKey ts :
  Sprintf_value req apiKey ts
  = canonical_message (http.Method req) (http.Path (http.URL_ req)) apiKey
                      (time.Unix ts) (fmt.verb_s (http.Body req)).
Proof. reflexivity. Qed.

(** C5, counterexample.  The paths [/a;b] and [/a] with the API keys [c]
    and [b;c] are distinct tuples with the same canonical message. *)
Lemma semicolon_in_fields_collides : ¬ distinct_fields_distinct_messages.
Proof.
  intros H.
  by apply (H (sample.at_path "/a;b") (sample.at_path "/a") "c"%string "b;c"%string
              sample.instant sample.instant).
Qed.

(** C5, amended.  Two calls whose fields differ in exactly one of method,
    path, API key, timestamp and body, the four others being equal, have
    different canonical messages. *)
Theorem one_changed_field_changes_the_message
    (req1 req2 : http.Request) (apiKey1 apiKey2 : string) (ts1 ts2 : time.Time) :
  one_component_apart (signed_fields req1 apiKey1 ts1) (signed_fields req2 apiKey2 ts2) →
  Sprintf_value req1 apiKey1 ts1 ≠ Sprintf_value req2 apiKey2 ts2.
Proof.
  unfold one_component_apart, signed_fields, Sprintf_value.
  intros [(N & E1 & E2 & E3 & E4)|[(E1 & N & E2 & E3 & E4)|[(E1 & E2 & N & E3 & E4)|
          [(E1 & E2 & E3 & N & E4)|(E1 & E2 & E3 & E4 & N)]]]] H;
    rewrite ?E1, ?E2, ?E3, ?E4 in H; apply N; clear N.
  - by apply append_inj_r in H.
  - apply (inj (String.append _)) in H. apply (inj (String.append _)) in H.
    by apply append_inj_r in H.
  - do 4 apply (inj (String.append _)) in H. by apply append_inj_r in H.
  - do 6 apply (inj (String.append _)) in H. apply append_inj_r in H.
    by apply FormatInt_inj.
  - by do 8 apply (inj (String.append _)) in H.
Qed.

(** C4, counterexample.  With signing off, a request the caller built with
    timestamp and signature headers leaves with them. *)
Lemma caller_supplied_signature_survives :
  ¬ signing_headers_iff_signing_mode
      (sample.world (Configure sample.ok sample.key_mode)
                    (sample.assets sample.forged http.nilBody)).
Proof.
  intros H.
  assert (D : delegated (sample.world (Configure sample.ok sample.key_mode)
                           (sample.assets sample.forged http.nilBody))
              = [set_Header ({[X_Detectify_Key := ["abc123"%string]]} ∪ sample.forged)
                            (sample.assets sample.forged http.nilBody)]).
  { vm_compute. reflexivity. }
  destruct (H _ D) as [[H1 _] _].
  apply H1; [|done]. split; by eexists.
Qed.

(** C4, amended.  For every installed transport and every request, the
    request that leaves carries the key header with the configured API key;
    it carries both the timestamp and the signature header exactly when
    signing mode is on or the caller's request already carried both; with
    signing on they hold the time read and the signature computed; with
    signing off they are as the caller supplied them. *)
Theorem signing_headers_iff_configured_or_supplied
    (rt : http.RoundTripper) (data : DetectifyProviderModel) (w : World) :
  installed rt data (self w) →
  let now := clock w (reads w) in
  let signing := ValueString (Signature data) ≠ ""%string in
  ∃ out w',
    RoundTrip w = (Returned (rt out), w')
    ∧ delegated w = [out]
    ∧ http.Header_ out !! X_Detectify_Key = Some [ValueString (APIKey data)]
    ∧ (carries X_Detectify_Timestamp out ∧ carries X_Detectify_Signature out
       ↔ signing ∨ (carries X_Detectify_Timestamp (request w)
                     ∧ carries X_Detectify_Signature (request w)))
    ∧ (signing →
         http.Header_ out !! X_Detectify_Timestamp
           = Some [strconv.FormatInt (time.Unix now)]
         ∧ http.Header_ out !! X_Detectify_Signature
           = Some [signature_with [] (request w) "" now])
    ∧ (¬ signing →
         http.Header_ out !! X_Detectify_Timestamp
           = http.Header_ (request w) !! X_Detectify_Timestamp
         ∧ http.Header_ out !! X_Detectify_Signature
           = http.Header_ (request w) !! X_Detectify_Signature).
Proof.
  intros I now signing. pose proof (installed_configured _ _ _ I) as C.
  assert (Hok : calculator_succeeds (self w)).
  { right. exists []. by rewrite (cfg_secret _ _ _ C). }
  destruct (RoundTrip_returns w Hok) as (t' & w' & R & St & Rq & _ & Dl & Cases).
  rewrite (cfg_Transport _ _ _ C) in R.
  eexists _, w'. split; [exact R|]. split; [exact Dl|]. simpl. unfold carries. simpl.
  subst signing. rewrite <- (cfg_signature _ _ _ C).
  destruct Cases as [[E ->]|(E & key & D & ->)].
  - rewrite (cfg_unsigned _ _ _ C E).
    assert (Ts : ({[X_Detectify_Key := [ValueString (APIKey data)]]} ∪ http.Header_ (request w))
                   !! X_Detectify_Timestamp = http.Header_ (request w) !! X_Detectify_Timestamp)
      by (by apply lookup_union_r).
    assert (Sg : ({[X_Detectify_Key := [ValueString (APIKey data)]]} ∪ http.Header_ (request w))
                   !! X_Detectify_Signature = http.Header_ (request w) !! X_Detectify_Signature)
      by (by apply lookup_union_r).
    rewrite Ts, Sg.
    split; [by apply lookup_union_Some_l|].
    split; [split; [by right | by intros [?|?]]|].
    split; [by intros ? | by intros _].
  - rewrite (cfg_secret _ _ _ C) in D. injection D as <-.
    rewrite (cfg_apiKey _ _ _ C). subst now. simpl.
    assert (Ky : ∀ h : http.Header, (Headers (stamped (clock w (reads w))
                    (signature_with [] (request w) "" (clock w (reads w))) (self w)) ∪ h)
                   !! X_Detectify_Key = Some [ValueString (APIKey data)]).
    { intros h. apply lookup_union_Some_l. simpl. rewrite !lookup_insert_ne by done. apply C. }
    assert (Ts : ∀ h : http.Header, (Headers (stamped (clock w (reads w))
                    (signature_with [] (request w) "" (clock w (reads w))) (self w)) ∪ h)
                   !! X_Detectify_Timestamp
                 = Some [strconv.FormatInt (time.Unix (clock w (reads w)))]).
    { intros h. apply lookup_union_Some_l. simpl.
      rewrite lookup_insert_ne by done. by rewrite lookup_insert_eq. }
    assert (Sg : ∀ h : http.Header, (Headers (stamped (clock w (reads w))
                    (signature_with [] (request w) "" (clock w (reads w))) (self w)) ∪ h)
                   !! X_Detectify_Signature
                 = Some [signature_with [] (request w) "" (clock w (reads w))]).
    { intros h. apply lookup_union_Some_l. simpl. by rewrite lookup_insert_eq. }
    rewrite (cfg_apiKey _ _ _ C) in *.
    simpl in *. rewrite Ky, Ts, Sg.
    split; [done|]. split; [split; [by left | by intros _; split; eexists]|].
    split; [by intros _ | by intros ?].
Qed.

(** C6, counterexample.  A signed send through the transport of
    [Configure] leaves the transport's header map changed. *)
Lemma signed_send_writes_the_transport :
  ¬ only_request_headers_written
      (sample.world (Configure sample.ok sample.hmac_mode)
                    (sample.assets ∅ http.nilBody)).
Proof.
  intros [H _]. apply (f_equal (λ t, Headers t !! X_Detectify_Timestamp)) in H.
  vm_compute in H. discriminate.
Qed.

(** C6, amended.  A send writes the request's header map and, when signing
    is on, the transport's own header map (the timestamp and signature
    entries, which stay there) and one line of standard output, after one
    reading of the clock; the clock itself, the transport's round-tripper,
    [apiKey], [secret] and [signature], its other header entries, and the
    request's method, URL and body are never written; with signing off the
    transport, the clock reading count and the output are untouched. *)
Theorem send_writes_headers_of_request_and_transport (w : World) :
  let w' := (RoundTrip w).2 in
  let now := clock w (reads w) in
  clock w' = clock w
  ∧ Transport (self w') = Transport (self w)
  ∧ apiKey (self w') = apiKey (self w)
  ∧ secret (self w') = secret (self w)
  ∧ signature (self w') = signature (self w)
  ∧ (∀ k, k ≠ X_Detectify_Timestamp → k ≠ X_Detectify_Signature →
          Headers (self w') !! k = Headers (self w) !! k)
  ∧ http.Method (request w') = http.Method (request w)
  ∧ http.URL_ (request w') = http.URL_ (request w)
  ∧ http.Body (request w') = http.Body (request w)
  ∧ (signature (self w) = ""%string →
       self w' = self w ∧ reads w' = reads w ∧ stdout w' = stdout w)
  ∧ (signature (self w) ≠ ""%string →
       reads w' = S (reads w)
       ∧ ∀ key, base64.DecodeString (secret (self w)) = (key, None) →
           self w' = stamped now (signature_with key (request w) (apiKey (self w)) now)
                             (self w)
           ∧ Headers (self w') !! X_Detectify_Timestamp
             = Some [strconv.FormatInt (time.Unix now)]
           ∧ stdout w' = stdout w ++ [Sprintf_value (request w) (apiKey (self w)) now]).
Proof.
  intros w' now. subst w' now.
  destruct (decide (signature (self w) = ""%string)) as [E|E].
  { rewrite RoundTrip_unsigned by done. simpl. by repeat split. }
  destruct (base64.DecodeString (secret (self w))) as [key [err|]] eqn:D.
  - rewrite (RoundTrip_panics w key err E D). simpl. by repeat split.
  - rewrite (RoundTrip_signed w key E D). simpl.
    do 5 (split; [done|]). split; [by intros k H1 H2; rewrite !lookup_insert_ne|].
    do 3 (split; [done|]). split; [done|]. intros _. split; [done|].
    intros key' [= <-]. split; [done|]. split; [|done].
    rewrite lookup_insert_ne by done. by rewrite lookup_insert_eq.
Qed.

(** C9.  The only output of a send is at most one line, the canonical
    message, which is computed from the request, the API key and the time:
    whatever the secret key and the configured signature value are, the
    output is the same (for secrets that decode and signing on), and a
    secret that does not decode prints nothing.  The output is produced
    before, and without, the signature. *)
Theorem diagnostics_do_not_depend_on_the_secret (w : World) :
  let line := Sprintf_value (request w) (apiKey (self w)) (clock w (reads w)) in
  (∀ s g, stdout (RoundTrip (with_secrets s g w)).2 = stdout w
          ∨ stdout (RoundTrip (with_secrets s g w)).2 = stdout w ++ [line])
  ∧ (∀ s1 g1 s2 g2 k1 k2,
       g1 ≠ ""%string → g2 ≠ ""%string →
       base64.DecodeString s1 = (k1, None) → base64.DecodeString s2 = (k2, None) →
       stdout (RoundTrip (with_secrets s1 g1 w)).2
       = stdout (RoundTrip (with_secrets s2 g2 w)).2)
  ∧ (∀ req apiKey ts s1 s2 k1 k2 w0,
       base64.DecodeString s1 = (k1, None) → base64.DecodeString s2 = (k2, None) →
       stdout (CalculateSignature req apiKey s1 ts w0).2
       = stdout (CalculateSignature req apiKey s2 ts w0).2)
  ∧ (∀ req apiKey ts s bs err w0,
       base64.DecodeString s = (bs, Some err) →
       stdout (CalculateSignature req apiKey s ts w0).2 = stdout w0).
Proof.
  intros line. subst line. repeat split.
  - intros s g. destruct (decide (g = ""%string)) as [E|E].
    + left. by rewrite RoundTrip_unsigned.
    + destruct (base64.DecodeString s) as [key [err|]] eqn:D.
      * left. by rewrite (RoundTrip_panics (with_secrets s g w) key err E D).
      * right. by rewrite (RoundTrip_signed (with_secrets s g w) key E D).
  - intros s1 g1 s2 g2 k1 k2 E1 E2 D1 D2.
    by rewrite (RoundTrip_signed (with_secrets s1 g1 w) k1 E1 D1),
               (RoundTrip_signed (with_secrets s2 g2 w) k2 E2 D2).
  - intros req apiKey ts s1 s2 k1 k2 w0 D1 D2. unfold CalculateSignature.
    by rewrite D1, D2.
  - intros req apiKey ts s bs err w0 D. unfold CalculateSignature. by rewrite D.
Qed.

(** C2.  [Configure] with the API key [abc123] and the signature value
    [c2VjcmV0] builds a transport whose [apiKey] and [secret] are empty: a
    send of [GET /v2/assets] signs [GET;/v2/assets;;1700000000;...] with the
    empty key, not the message with [abc123] keyed with the decoded
    [c2VjcmV0], and the two signatures differ. *)
Theorem Configure_leaves_apiKey_and_secret_unset :
  let t := Configure sample.ok sample.hmac_mode in
  let req := sample.assets ∅ http.nilBody in
  apiKey t = ""%string ∧ secret t = ""%string
  ∧ ∃ out w',
      RoundTrip (sample.world t req) = (Returned (sample.ok out), w')
      ∧ delegated (sample.world t req) = [out]
      ∧ stdout w' = ["GET;/v2/assets;;1700000000;%!s(<nil>)"%string]
      ∧ http.Header_ out !! X_Detectify_Signature
        = Some ["4Jks4xsz9pnR10VrLcWLuy3ecPmlBEMtQL9fR6WUcVk="%string]
      ∧ (CalculateSignature req "abc123" "c2VjcmV0" sample.instant (sample.world t req)).1
        = Returned "/VTD2mSoXxRuVFu5YJ/6dHRJr4TbJ3V82yGGA+8ItIE="%string.
Proof.
  intros t req. split; [done|]. split; [done|].
  eexists _, _. split; [vm_compute; reflexivity|]. by vm_compute.
Qed.

(** * The theorems at concrete inputs *)

Lemma CalculateSignature_end_to_end :
  base64.DecodeString "c2VjcmV0" = (Bytes.of_string "secret", None)
  ∧ CalculateSignature (sample.assets ∅ (http.reader "" [])) "abc123" "c2VjcmV0"
      sample.instant (sample.world (sample.by_hand "c2VjcmV0") (sample.at_path "/"))
    = (Returned "texel15YCQWqRQQfCcP/7NTMNcZhAjk3ptiHolRB5BY="%string,
       set_stdout ["GET;/v2/assets;abc123;1700000000;"%string]
         (sample.world (sample.by_hand "c2VjcmV0") (sample.at_path "/"))).
Proof.
  split; [reflexivity|].
  rewrite (CalculateSignature_is_hmac_of_canonical_message
             (sample.assets ∅ (http.reader "" [])) "abc123" "c2VjcmV0" sample.instant
             (Bytes.of_string "secret") _ eq_refl).
  vm_compute. reflexivity.
Defined.

Lemma invalid_secret_at_not_base64 :
  base64.DecodeString "not-base64!!" = ([], Some (base64.CorruptInputError 3))
  ∧ ∃ w', RoundTrip (sample.world (sample.by_hand "not-base64!!") (sample.at_path "/"))
          = (Panicked (base64.CorruptInputError 3), w')
          ∧ request w' = sample.at_path "/".
Proof.
  split; [reflexivity|].
  destruct (proj2 (invalid_secret_panics_before_any_header
                     "not-base64!!" [] (base64.CorruptInputError 3) eq_refl)
              (sample.world (sample.by_hand "not-base64!!") (sample.at_path "/")))
    as (w' & R & Rq & _); [done | done |].
  exists w'. by split.
Defined.

Lemma signing_headers_at_hmac_mode :
  installed sample.ok sample.hmac_mode
    (self (sample.world (Configure sample.ok sample.hmac_mode) (sample.at_path "/")))
  ∧ ∃ out, delegated (sample.world (Configure sample.ok sample.hmac_mode)
                        (sample.at_path "/")) = [out]
           ∧ http.Header_ out !! X_Detectify_Key = Some ["abc123"%string]
           ∧ http.Header_ out !! X_Detectify_Timestamp = Some ["1700000000"%string].
Proof.
  split; [constructor|].
  destruct (signing_headers_iff_configured_or_supplied sample.ok sample.hmac_mode
              (sample.world (Configure sample.ok sample.hmac_mode) (sample.at_path "/"))
              (installed_by_Configure _ _))
    as (out & w' & _ & D & K & _ & S & _).
  exists out. split; [exact D|]. split; [exact K|]. by apply S.
Defined.

Lemma changed_path_changes_the_message :
  one_component_apart (signed_fields (sample.at_path "/a") "k" sample.instant)
                      (signed_fields (sample.at_path "/b") "k" sample.instant)
  ∧ Sprintf_value (sample.at_path "/a") "k" sample.instant
    ≠ Sprintf_value (sample.at_path "/b") "k" sample.instant.
Proof.
  assert (A : one_component_apart (signed_fields (sample.at_path "/a") "k" sample.instant)
                (signed_fields (sample.at_path "/b") "k" sample.instant)).
  { right. left. by repeat split. }
  split; [exact A|].
  exact (one_changed_field_changes_the_message _ _ _ _ _ _ A).
Defined.

Lemma signed_send_stamps_the_transport :
  signature (Configure sample.ok sample.hmac_mode) ≠ ""%string
  ∧ base64.DecodeString (secret (Configure sample.ok sample.hmac_mode)) = ([], None)
  ∧ Headers (self (RoundTrip (sample.world (Configure sample.ok sample.hmac_mode)
                                (sample.at_path "/"))).2)
      !! X_Detectify_Timestamp
    = Some ["1700000000"%string].
Proof.
  split; [done|]. split; [reflexivity|].
  pose proof (send_writes_headers_of_request_and_transport
                (sample.world (Configure sample.ok sample.hmac_mode) (sample.at_path "/")))
    as (_ & _ & _ & _ & _ & _ & _ & _ & _ & _ & S).
  destruct S as [_ S]; [done|]. destruct (S [] eq_refl) as (_ & T & _). exact T.
Defined.

Lemma send_delegates_once_at_key_mode :
  calculator_succeeds (Configure sample.ok sample.key_mode)
  ∧ ∃ out w', RoundTrip (sample.world (Configure sample.ok sample.key_mode)
                           (sample.at_path "/"))
              = (Returned (sample.ok out), w')
              ∧ delegated (sample.world (Configure sample.ok sample.key_mode)
                             (sample.at_path "/")) = [out].
Proof.
  assert (A : calculator_succeeds (Configure sample.ok sample.key_mode)) by (by left).
  split; [exact A|].
  destruct (send_delegates_once_and_leaves_the_rest
              (sample.world (Configure sample.ok sample.key_mode) (sample.at_path "/")) A)
    as (out & w' & R & D & _).
  exists out, w'. split; [exact R | exact D].
Defined.

Lemma static_key_header_wins_over_the_caller :
  installed sample.ok sample.key_mode (Configure sample.ok sample.key_mode)
  ∧ ∃ out, delegated (sample.world (Configure sample.ok sample.key_mode)
                        (sample.assets {[X_Detectify_Key := ["mine"%string]]} http.NoBody))
           = [out]
           ∧ http.Header_ out !! X_Detectify_Key = Some ["abc123"%string].
Proof.
  split; [constructor|].
  destruct (static_headers_take_precedence sample.ok sample.key_mode
              (sample.world (Configure sample.ok sample.key_mode)
                 (sample.assets {[X_Detectify_Key := ["mine"%string]]} http.NoBody))
              (installed_by_Configure _ _))
    as (out & w' & _ & D & K).
  exists out. split; [exact D|]. by apply K.
Defined.

Lemma same_output_for_two_secrets :
  base64.DecodeString "c2VjcmV0" = (Bytes.of_string "secret", None)
  ∧ base64.DecodeString "" = ([], None)
  ∧ stdout (RoundTrip (with_secrets "c2VjcmV0" "on"
                         (sample.world (sample.by_hand "") (sample.at_path "/")))).2
    = stdout (RoundTrip (with_secrets "" "c2VjcmV0"
                           (sample.world (sample.by_hand "") (sample.at_path "/")))).2.
Proof.
  split; [reflexivity|]. split; [reflexivity|].
  pose proof (diagnostics_do_not_depend_on_the_secret
                (sample.world (sample.by_hand "") (sample.at_path "/")))
    as (_ & N & _).
  by apply (N "c2VjcmV0"%string "on"%string ""%string "c2VjcmV0"%string
              (Bytes.of_string "secret") []).
Defined.

Lemma installed_transport_does_not_panic :
  installed sample.ok sample.hmac_mode (Configure sample.ok sample.hmac_mode)
  ∧ ∃ r w', RoundTrip (sample.world (Configure sample.ok sample.hmac_mode)
                         (sample.at_path "/")) = (Returned r, w').
Proof.
  split; [constructor|].
  destruct empty_secret_never_fails as (_ & _ & N).
  exact (proj2 (N sample.ok sample.hmac_mode
                  (sample.world (Configure sample.ok sample.hmac_mode) (sample.at_path "/"))
                  (installed_by_Configure _ _))).
Defined.

(** * More of the code: the library calls, runs of sends, the life cycle *)

Lemma to_Z_range (b : byte) : Bytes.to_Z b = Z.land (Bytes.to_Z b) (Z.ones 8).
Proof.
  unfold Bytes.to_Z. pose proof (Byte.to_N_bounded b) as H.
  rewrite Z.land_ones by done. rewrite Z.mod_small; [done|]. change (2 ^ 8) with 256. lia.
Qed.

Lemma of_Z_to_Z (x : Z) (b : byte) : Z.land x 255 = Bytes.to_Z b → Bytes.of_Z x = b.
Proof.
  unfold Bytes.of_Z, Bytes.to_Z. intros ->. by rewrite N2Z.id, Byte.of_to_N.
Qed.

Lemma decodeMap_encodeChar (x : Z) :
  base64.decodeMap (base64.encodeChar x) = Some (Z.land x 63).
Proof.
  assert (R : 0 <= Z.land x 63 < 64).
  { change 63 with (Z.ones 6). rewrite Z.land_ones by done. apply Z.mod_pos_bound. done. }
  unfold base64.encodeChar. 
  assert (A : forallb (λ i, bool_decide (base64.decodeMap
              (default "A"%char (String.get i base64.encodeStd)) = Some (Z.of_nat i)))
              (seq 0 64) = true) by (vm_compute; reflexivity).
  rewrite forallb_forall in A.
  specialize (A (Z.to_nat (Z.land x 63))).
  rewrite bool_decide_eq_true in A. rewrite A; [f_equal; lia|].
  apply in_seq. lia.
Qed.



(** The sextets of a 24-bit value, put back together as [decodeQuantum]
    does, with four, three and two sextets present. *)
Lemma sextets_recombine (x : Z) :
  let val := Z.land x (Z.ones 24) in
  Z.lor (Z.lor (Z.lor (Z.shiftl (Z.land (Z.shiftr val 18) (Z.ones 6)) 18)
                      (Z.shiftl (Z.land (Z.shiftr val 12) (Z.ones 6)) 12))
               (Z.shiftl (Z.land (Z.shiftr val 6) (Z.ones 6)) 6))
        (Z.land val (Z.ones 6)) = val.
Proof. intros val. subst val. Z.bitblast; Z.bitblast_core. Qed.

Lemma sextets_recombine_3 (x : Z) :
  let val := Z.land x (Z.ones 24) in
  Z.shiftr (Z.lor (Z.lor (Z.lor (Z.shiftl (Z.land (Z.shiftr val 18) (Z.ones 6)) 18)
                      (Z.shiftl (Z.land (Z.shiftr val 12) (Z.ones 6)) 12))
               (Z.shiftl (Z.land (Z.shiftr val 6) (Z.ones 6)) 6)) 0) 8
  = Z.shiftr val 8.
Proof. intros val. subst val. Z.bitblast; Z.bitblast_core. Qed.

Lemma sextets_recombine_2 (x : Z) :
  let val := Z.land x (Z.ones 24) in
  Z.shiftr (Z.lor (Z.lor (Z.lor (Z.shiftl (Z.land (Z.shiftr val 18) (Z.ones 6)) 18)
                      (Z.shiftl (Z.land (Z.shiftr val 12) (Z.ones 6)) 12))
               (Z.shiftl 0 6)) 0) 16
  = Z.shiftr val 16.
Proof. intros val. subst val. Z.bitblast; Z.bitblast_core. Qed.

Lemma packed_bytes (x0 x1 x2 : Z) :
  let X0 := Z.land x0 (Z.ones 8) in
  let X1 := Z.land x1 (Z.ones 8) in
  let X2 := Z.land x2 (Z.ones 8) in
  let val := Z.lor (Z.lor (Z.shiftl X0 16) (Z.shiftl X1 8)) X2 in
  val = Z.land val (Z.ones 24)
  ∧ Z.land (Z.shiftr val 16) (Z.ones 8) = X0
  ∧ Z.land (Z.shiftr val 8) (Z.ones 8) = X1
  ∧ Z.land val (Z.ones 8) = X2.
Proof. intros X0 X1 X2 val. subst X0 X1 X2 val. repeat split; Z.bitblast; Z.bitblast_core. Qed.

Lemma list_ind3 {A} (P : list A → Prop) :
  P [] → (∀ a, P [a]) → (∀ a b, P [a; b]) →
  (∀ a b c l, P l → P (a :: b :: c :: l)) → ∀ l, P l.
Proof.
  intros H0 H1 H2 H3 l.
  assert (G : ∀ n (l : list A), (length l < n)%nat → P l).
  { intros n. induction n as [|n IH]; intros k Hk; [lia|].
    destruct k as [|a [|b [|c k]]]; auto.
    apply H3, IH. simpl in Hk. lia. }
  apply (G (S (length l))). lia.
Qed.

Lemma decode_quad (c0 c1 c2 c3 : ascii) (s0 s1 s2 s3 : Z) (rest : string) (si : Z) :
  base64.decodeMap c0 = Some s0 → base64.decodeMap c1 = Some s1 →
  base64.decodeMap c2 = Some s2 → base64.decodeMap c3 = Some s3 →
  base64.decode (String c0 (String c1 (String c2 (String c3 rest)))) si []
  = (base64.quantum [s0; s1; s2; s3] ++ (base64.decode rest (si + 1 + 1 + 1 + 1) []).1,
     (base64.decode rest (si + 1 + 1 + 1 + 1) []).2).
Proof.
  intros E0 E1 E2 E3. cbn [base64.decode]. rewrite E0. cbn [app length Nat.eqb].
  rewrite E1. cbn [app length Nat.eqb]. rewrite E2. cbn [app length Nat.eqb].
  rewrite E3. cbn [app length Nat.eqb]. by destruct (base64.decode rest _ _).
Qed.

Lemma decode_pad1 (c0 c1 c2 : ascii) (s0 s1 s2 : Z) (si : Z) :
  base64.decodeMap c0 = Some s0 → base64.decodeMap c1 = Some s1 →
  base64.decodeMap c2 = Some s2 →
  base64.decode (String c0 (String c1 (String c2 (String base64.StdPadding "")))) si []
  = (base64.quantum [s0; s1; s2], None).
Proof.
  intros E0 E1 E2. cbn [base64.decode]. rewrite E0. cbn [app length Nat.eqb].
  rewrite E1. cbn [app length Nat.eqb]. rewrite E2. cbn [app length Nat.eqb].
  reflexivity.
Qed.

Lemma decode_pad2 (c0 c1 : ascii) (s0 s1 : Z) (si : Z) :
  base64.decodeMap c0 = Some s0 → base64.decodeMap c1 = Some s1 →
  base64.decode (String c0 (String c1 (String base64.StdPadding
                                         (String base64.StdPadding "")))) si []
  = (base64.quantum [s0; s1], None).
Proof.
  intros E0 E1. cbn [base64.decode]. rewrite E0. cbn [app length Nat.eqb].
  rewrite E1. cbn [app length Nat.eqb]. reflexivity.
Qed.

Lemma quantum_three (b0 b1 b2 : byte) :
  let val := Z.lor (Z.lor (Z.shiftl (Bytes.to_Z b0) 16) (Z.shiftl (Bytes.to_Z b1) 8))
                   (Bytes.to_Z b2) in
  base64.quantum [Z.land (Z.shiftr val 18) 63; Z.land (Z.shiftr val 12) 63;
                  Z.land (Z.shiftr val 6) 63; Z.land val 63] = [b0; b1; b2].
Proof.
  intros val.
  destruct (packed_bytes (Bytes.to_Z b0) (Bytes.to_Z b1) (Bytes.to_Z b2)) as (V & P0 & P1 & P2).
  rewrite <- !to_Z_range in V, P0, P1, P2. fold val in V, P0, P1, P2.
  pose proof (sextets_recombine val) as R. cbv zeta in R. rewrite <- V in R.
  unfold base64.quantum. cbn [nth length take Nat.sub].
  change 63 with (Z.ones 6). rewrite R.
  f_equal; [|f_equal; [|f_equal]]; by apply of_Z_to_Z.
Qed.

Lemma quantum_two (b0 b1 : byte) :
  let val := Z.lor (Z.shiftl (Bytes.to_Z b0) 16) (Z.shiftl (Bytes.to_Z b1) 8) in
  base64.quantum [Z.land (Z.shiftr val 18) 63; Z.land (Z.shiftr val 12) 63;
                  Z.land (Z.shiftr val 6) 63] = [b0; b1].
Proof.
  intros val.
  destruct (packed_bytes (Bytes.to_Z b0) (Bytes.to_Z b1) 0) as (V & P0 & P1 & _).
  rewrite <- !to_Z_range in V, P0, P1. change (Z.land 0 (Z.ones 8)) with 0 in V, P0, P1.
  rewrite Z.lor_0_r in V, P0, P1. fold val in V, P0, P1.
  pose proof (sextets_recombine_3 val) as R. cbv zeta in R. rewrite <- V in R.
  unfold base64.quantum. cbn [nth length take Nat.sub].
  change 63 with (Z.ones 6).
  f_equal; [|f_equal]; apply of_Z_to_Z.
  - rewrite <- P0. f_equal. change 16 with (8 + 8). rewrite <- !Z.shiftr_shiftr by done.
    by rewrite R.
  - rewrite <- P1. f_equal. exact R.
Qed.

Lemma quantum_one (b0 : byte) :
  let val := Z.shiftl (Bytes.to_Z b0) 16 in
  base64.quantum [Z.land (Z.shiftr val 18) 63; Z.land (Z.shiftr val 12) 63] = [b0].
Proof.
  intros val.
  destruct (packed_bytes (Bytes.to_Z b0) 0 0) as (V & P0 & _).
  rewrite <- !to_Z_range in V, P0. change (Z.land 0 (Z.ones 8)) with 0 in V, P0.
  change (Z.shiftl 0 8) with 0 in V, P0.
  rewrite !Z.lor_0_r in V, P0. fold val in V, P0.
  pose proof (sextets_recombine_2 val) as R. cbv zeta in R. rewrite <- V in R.
  unfold base64.quantum. cbn [nth length take Nat.sub].
  change 63 with (Z.ones 6).
  f_equal. apply of_Z_to_Z. rewrite <- P0. f_equal. exact R.
Qed.

Lemma decode_encode (bs : list byte) (si : Z) :
  base64.decode (base64.encode bs) si [] = (bs, None).
Proof.
  revert si. induction bs as [|b0|b0 b1|b0 b1 b2 rest IH] using list_ind3; intros si.
  - reflexivity.
  - cbn [base64.encode]. cbv zeta.
    rewrite (decode_pad2 _ _ _ _ si (decodeMap_encodeChar _) (decodeMap_encodeChar _)).
    by rewrite quantum_one.
  - cbn [base64.encode]. cbv zeta.
    rewrite (decode_pad1 _ _ _ _ _ _ si (decodeMap_encodeChar _) (decodeMap_encodeChar _)
               (decodeMap_encodeChar _)).
    by rewrite quantum_two.
  - cbn [base64.encode]. cbv zeta.
    rewrite (decode_quad _ _ _ _ _ _ _ _ _ si (decodeMap_encodeChar _)
               (decodeMap_encodeChar _) (decodeMap_encodeChar _) (decodeMap_encodeChar _)).
    by rewrite IH, quantum_three.
Qed.

Lemma encode_length (bs : list byte) :
  String.length (base64.encode bs) = (4 * ((length bs + 2) / 3))%nat.
Proof.
  induction bs as [|b0|b0 b1|b0 b1 b2 rest IH] using list_ind3; try reflexivity.
  cbn [base64.encode length]. cbv zeta. cbn [String.length]. rewrite IH.
  replace (S (S (S (length rest))) + 2)%nat with (1 * 3 + (length rest + 2))%nat by lia.
  rewrite Nat.div_add_l by done. lia.
Qed.

Lemma round_length (h : list Z) (kw : Z * Z) : length (sha256.round h kw) = length h.
Proof.
  unfold sha256.round. do 8 (destruct h as [|? h]; [done|]). by destruct h.
Qed.

Lemma rounds_length (kws : list (Z * Z)) (h : list Z) :
  length (fold_left sha256.round kws h) = length h.
Proof.
  revert h. induction kws as [|kw kws IH]; intros h; [done|].
  simpl. by rewrite IH, round_length.
Qed.

Lemma block_length (h : list Z) (p : list byte) : length (sha256.block h p) = length h.
Proof.
  unfold sha256.block. rewrite length_zip_with, rounds_length. lia.
Qed.

Lemma blocks_length (n : nat) (h : list Z) (p : list byte) :
  length (sha256.blocks n h p) = length h.
Proof.
  revert h p. induction n as [|n IH]; intros h p; [done|].
  simpl. by rewrite IH, block_length.
Qed.

Lemma word_bytes_concat_length (ws : list Z) :
  length (concat (map sha256.word_bytes ws)) = (4 * length ws)%nat.
Proof. induction ws as [|x ws IH]; [done|]. simpl. rewrite IH. lia. Qed.

Lemma Sum256_length (data : list byte) : length (sha256.Sum256 data) = 32%nat.
Proof.
  unfold sha256.Sum256. by rewrite word_bytes_concat_length, blocks_length.
Qed.

Lemma hmac_Sum_length (key message : list byte) : length (hmac.Sum key message) = 32%nat.
Proof. apply Sum256_length. Qed.

(** X2.  Decoding what [EncodeToString] wrote gives the bytes back, without
    error, for every byte string. *)
Theorem DecodeString_EncodeToString (bs : list byte) :
  base64.DecodeString (base64.EncodeToString bs) = (bs, None).
Proof. apply decode_encode. Qed.

(** X1.  For every request, API key, timestamp and secret that decodes, the
    signature [CalculateSignature] returns has 44 characters and is valid
    standard base64: it decodes, without error, to the HMAC-SHA256 digest of
    the canonical message, which has 32 bytes. *)
Theorem signature_is_base64_of_a_32_byte_digest
    (req : http.Request) (apiKey secretKey : string) (timestamp : time.Time)
    (key : list byte) (w : World) :
  base64.DecodeString secretKey = (key, None) →
  let digest := hmac.Sum key (Bytes.of_string (Sprintf_value req apiKey timestamp)) in
  ∃ sig w',
    CalculateSignature req apiKey secretKey timestamp w = (Returned sig, w')
    ∧ String.length sig = 44%nat
    ∧ base64.DecodeString sig = (digest, None)
    ∧ length digest = 32%nat.
Proof.
  intros D digest. unfold CalculateSignature. rewrite D.
  eexists _, _. split; [reflexivity|].
  split; [|split; [apply decode_encode | apply hmac_Sum_length]].
  unfold base64.EncodeToString. by rewrite encode_length, hmac_Sum_length.
Qed.

Lemma skip_newlines_shift (src : string) (si d : Z) :
  base64.skip_newlines src (si + d)
  = ((base64.skip_newlines src si).1, (base64.skip_newlines src si).2 + d).
Proof.
  revert si. induction src as [|c rest IH]; intros si; simpl; [done|].
  destruct (base64.is_newline c); [|done].
  replace (si + d + 1) with (si + 1 + d) by lia. apply IH.
Qed.

Lemma after_padding_shift (src : string) (si d : Z) (dbuf : list Z) :
  base64.after_padding src (si + d) dbuf = shifted d (base64.after_padding src si dbuf).
Proof.
  unfold base64.after_padding. rewrite skip_newlines_shift.
  by destruct (base64.skip_newlines src si) as [[|? ?] ?].
Qed.

Lemma decode_shift (src : string) (si d : Z) (dbuf : list Z) :
  base64.decode src (si + d) dbuf = shifted d (base64.decode src si dbuf).
Proof.
  revert si dbuf. induction src as [|c rest IH]; intros si dbuf.
  - simpl. destruct dbuf; [done|]. simpl. do 3 f_equal. lia.
  - cbn [base64.decode].
    replace (si + d + 1) with (si + 1 + d) by lia.
    destruct (base64.decodeMap c) as [out|].
    + destruct (length (dbuf ++ [out]) =? 4)%nat.
      * rewrite IH. by destruct (base64.decode rest (si + 1) []) as [bs [[off]|]].
      * apply IH.
    + destruct (base64.is_newline c); [apply IH|].
      destruct (negb (Ascii.eqb c base64.StdPadding)); [done|].
      destruct (length dbuf) as [|[|[|n]]]; try done.
      * rewrite skip_newlines_shift.
        destruct (base64.skip_newlines rest (si + 1)) as [[|c' rest'] si']; [done|].
        cbn [fst snd]. destruct (negb (Ascii.eqb c' base64.StdPadding)).
        -- simpl. do 3 f_equal. lia.
        -- replace (si' + d + 1) with (si' + 1 + d) by lia. apply after_padding_shift.
      * apply after_padding_shift.
Qed.

Lemma skip_newlines_bounds (src : string) (si : Z) :
  let r := base64.skip_newlines src si in
  si <= r.2 ∧ r.2 + Z.of_nat (String.length r.1) = si + Z.of_nat (String.length src).
Proof.
  revert si. induction src as [|c rest IH]; intros si; simpl; [lia|].
  destruct (base64.is_newline c); simpl; [|lia].
  specialize (IH (si + 1)). simpl in IH. lia.
Qed.

Lemma after_padding_bounds (src : string) (si : Z) (dbuf : list Z) bs off :
  base64.after_padding src si dbuf = (bs, Some (base64.CorruptInputError off)) →
  si <= off <= si + Z.of_nat (String.length src).
Proof.
  unfold base64.after_padding. pose proof (skip_newlines_bounds src si) as B.
  destruct (base64.skip_newlines src si) as [[|? ?] si']; [done|].
  simpl in B. intros [= _ <-]. lia.
Qed.

Lemma decode_bounds (src : string) (si : Z) (dbuf : list Z) bs off :
  base64.decode src si dbuf = (bs, Some (base64.CorruptInputError off)) →
  si - Z.of_nat (length dbuf) <= off <= si + Z.of_nat (String.length src).
Proof.
  revert si dbuf bs. induction src as [|c rest IH]; intros si dbuf bs.
  - simpl. destruct dbuf; [done|]. intros [= _ <-]. simpl. lia.
  - cbn [base64.decode String.length].
    destruct (base64.decodeMap c) as [out|].
    + destruct (length (dbuf ++ [out]) =? 4)%nat eqn:L.
      * destruct (base64.decode rest (si + 1) []) as [bs' [[off']|]] eqn:D; [|done].
        intros [= _ <-]. apply IH in D. simpl in D. lia.
      * intros D. apply IH in D. rewrite length_app in D. simpl in D. lia.
    + destruct (base64.is_newline c); [intros D; apply IH in D; lia|].
      destruct (negb (Ascii.eqb c base64.StdPadding)); [intros [= _ <-]; lia|].
      destruct (length dbuf) as [|[|[|n]]].
      * intros [= _ <-]; lia.
      * intros [= _ <-]; lia.
      * pose proof (skip_newlines_bounds rest (si + 1)) as B.
        destruct (base64.skip_newlines rest (si + 1)) as [[|c' rest'] si'];
          simpl in B; [intros [= _ <-]; lia|].
        destruct (negb (Ascii.eqb c' base64.StdPadding)); [intros [= _ <-]; lia|].
        intros D. apply after_padding_bounds in D. lia.
      * intros D. apply after_padding_bounds in D. lia.
Qed.

(** X3.  When [DecodeString] rejects its input, the offset the
    [CorruptInputError] carries (the value [CalculateSignature] panics with)
    lies between 0 and the length of the input. *)
Theorem CorruptInputError_offset_within_input (s : string) (bs : list byte) (off : Z) :
  base64.DecodeString s = (bs, Some (base64.CorruptInputError off)) →
  0 <= off <= Z.of_nat (String.length s).
Proof. intros D. apply decode_bounds in D. simpl in D. lia. Qed.

Lemma newline_not_in_alphabet (c : ascii) :
  base64.is_newline c = true →
  base64.decodeMap c = None ∧ Ascii.eqb c base64.StdPadding = false.
Proof.
  unfold base64.is_newline. intros H. apply orb_true_iff in H as [H|H];
    apply Ascii.eqb_eq in H; by subst c.
Qed.

Lemma same_outcome_refl r : same_outcome r r.
Proof. by split. Qed.

Lemma same_outcome_trans r1 r2 r3 :
  same_outcome r1 r2 → same_outcome r2 r3 → same_outcome r1 r3.
Proof. intros [A B] [C D]. split; [congruence | by rewrite B]. Qed.

Lemma same_outcome_shifted d r : same_outcome (shifted d r) r.
Proof. by destruct r as [bs [[off]|]]. Qed.

Lemma same_outcome_app (q : list byte) r1 r2 :
  same_outcome r1 r2 → same_outcome (q ++ r1.1, r1.2) (q ++ r2.1, r2.2).
Proof. intros [A B]. split; simpl; [by rewrite A | done]. Qed.

Lemma skip_newlines_strip (src : string) (si : Z) :
  let r := (base64.skip_newlines src si).1 in
  strip_newlines r = strip_newlines src
  ∧ (r = EmptyString ∨ ∃ c t, r = String c t ∧ base64.is_newline c = false).
Proof.
  revert si. induction src as [|c rest IH]; intros si; simpl; [by split; [|left]|].
  destruct (base64.is_newline c) eqn:N; [apply IH|].
  simpl. rewrite N. split; [done|]. right. by exists c, rest.
Qed.

Lemma skip_newlines_stripped (src : string) (si : Z) :
  base64.skip_newlines (strip_newlines src) si = (strip_newlines src, si).
Proof.
  induction src as [|c rest IH]; simpl; [done|].
  destruct (base64.is_newline c) eqn:N; [done|]. simpl. by rewrite N.
Qed.

Lemma after_padding_strip (src : string) (si si' : Z) (dbuf : list Z) :
  same_outcome (base64.after_padding src si dbuf)
               (base64.after_padding (strip_newlines src) si' dbuf).
Proof.
  unfold base64.after_padding. rewrite skip_newlines_stripped.
  destruct (skip_newlines_strip src si) as [E H].
  destruct (base64.skip_newlines src si) as [r x]. simpl in E, H.
  destruct H as [->|(c & t & -> & N)].
  - simpl in E. by rewrite <- E.
  - simpl in E. rewrite N in E. by rewrite <- E.
Qed.

Lemma decode_strip (src : string) (si : Z) (dbuf : list Z) :
  same_outcome (base64.decode src si dbuf) (base64.decode (strip_newlines src) si dbuf).
Proof.
  revert si dbuf. induction src as [|c rest IH]; intros si dbuf; [apply same_outcome_refl|].
  cbn [strip_newlines]. destruct (base64.is_newline c) eqn:N.
  - destruct (newline_not_in_alphabet c N) as [M _].
    cbn [base64.decode]. rewrite M, N.
    eapply same_outcome_trans; [|apply IH].
    rewrite decode_shift. apply same_outcome_shifted.
  - cbn [base64.decode]. rewrite N.
    destruct (base64.decodeMap c) as [out|].
    + destruct (length (dbuf ++ [out]) =? 4)%nat; [|apply IH].
      specialize (IH (si + 1) []).
      destruct (base64.decode rest (si + 1) []) as [b1 e1].
      destruct (base64.decode (strip_newlines rest) (si + 1) []) as [b2 e2].
      by apply (same_outcome_app _ (b1, e1) (b2, e2)).
    + destruct (negb (Ascii.eqb c base64.StdPadding)); [apply same_outcome_refl|].
      destruct (length dbuf) as [|[|[|n]]]; try apply same_outcome_refl.
      * rewrite skip_newlines_stripped.
        destruct (skip_newlines_strip rest (si + 1)) as [E H].
        destruct (base64.skip_newlines rest (si + 1)) as [r x]. simpl in E, H.
        destruct H as [->|(c' & t & -> & N')].
        -- simpl in E. by rewrite <- E.
        -- simpl in E. rewrite N' in E. rewrite <- E.
           destruct (negb (Ascii.eqb c' base64.StdPadding)); [done|].
           apply after_padding_strip.
      * apply after_padding_strip.
Qed.

(** X4.  Carriage returns and line feeds in the secret are ignored: two
    secrets that are equal once these are removed decode to the same bytes
    or are both rejected, and when they decode [CalculateSignature] returns
    the same for both. *)
Theorem newlines_in_the_secret_are_ignored (s1 s2 : string) :
  strip_newlines s1 = strip_newlines s2 →
  same_outcome (base64.DecodeString s1) (base64.DecodeString s2)
  ∧ ∀ req apiKey timestamp w key,
      base64.DecodeString s1 = (key, None) →
      CalculateSignature req apiKey s2 timestamp w
      = CalculateSignature req apiKey s1 timestamp w.
Proof.
  intros E.
  assert (S : same_outcome (base64.DecodeString s1) (base64.DecodeString s2)).
  { unfold base64.DecodeString. eapply same_outcome_trans; [apply decode_strip|].
    rewrite E. destruct (decode_strip s2 0 []) as [A B]. by split. }
  split; [exact S|]. intros req apiKey ts w key D.
  destruct S as [A B]. rewrite D in A, B. simpl in A, B.
  unfold CalculateSignature. rewrite D.
  destruct (base64.DecodeString s2) as [k2 e2]. simpl in A, B. subst k2.
  by rewrite (proj1 B eq_refl).
Qed.

Lemma block_key_zero_padded (key : list byte) (n : nat) :
  (length key + n <= 64)%nat →
  hmac.block_key (key ++ replicate n x00) = hmac.block_key key.
Proof.
  intros L. unfold hmac.block_key, sha256.BlockSize.
  rewrite length_app, length_replicate.
  destruct (Z.gtb_spec (Z.of_nat (length key + n)) 64) as [?|_]; [exfalso; lia|].
  destruct (Z.gtb_spec (Z.of_nat (length key)) 64) as [?|_]; [exfalso; lia|].
  rewrite <- app_assoc, <- replicate_add. do 2 f_equal.
  change (Z.to_nat 64) with 64%nat. rewrite length_app, length_replicate. lia.
Qed.

Lemma block_key_long (key : list byte) :
  (64 < length key)%nat →
  hmac.block_key key = hmac.block_key (sha256.Sum256 key).
Proof.
  intros L. unfold hmac.block_key, sha256.BlockSize. rewrite Sum256_length.
  destruct (Z.gtb_spec (Z.of_nat (length key)) 64) as [_|?]; [|exfalso; lia].
  change (Z.of_nat 32 >? 64) with false. cbv iota. by rewrite Sum256_length.
Qed.

(** X5.  Zero bytes at the end of a key of at most 64 bytes do not count: a
    secret that decodes to [key] and one that decodes to [key] followed by
    zero bytes give the same result of [CalculateSignature]. *)
Theorem trailing_zero_bytes_of_the_key_do_not_count
    (s1 s2 : string) (key : list byte) (n : nat) :
  base64.DecodeString s1 = (key, None) →
  base64.DecodeString s2 = (key ++ replicate n x00, None) →
  (length key + n <= 64)%nat →
  ∀ req apiKey timestamp w,
    CalculateSignature req apiKey s2 timestamp w
    = CalculateSignature req apiKey s1 timestamp w.
Proof.
  intros D1 D2 L req apiKey ts w. unfold CalculateSignature. rewrite D1, D2.
  unfold hmac.Sum. by rewrite block_key_zero_padded.
Qed.

(** X6.  A key longer than the 64-byte block signs as its own SHA-256
    digest does: a secret that decodes to such a key and one that decodes
    to the digest of that key give the same result. *)
Theorem long_key_signs_as_its_digest (s1 s2 : string) (key : list byte) :
  base64.DecodeString s1 = (key, None) →
  base64.DecodeString s2 = (sha256.Sum256 key, None) →
  (64 < length key)%nat →
  ∀ req apiKey timestamp w,
    CalculateSignature req apiKey s2 timestamp w
    = CalculateSignature req apiKey s1 timestamp w.
Proof.
  intros D1 D2 L req apiKey ts w. unfold CalculateSignature. rewrite D1, D2.
  unfold hmac.Sum. by rewrite (block_key_long key L).
Qed.

Lemma installed_headers_dom rt data t :
  installed rt data t → dom (Headers t) ⊆ authentication_headers.
Proof.
  unfold authentication_headers. induction 1 as [|w Hw IH].
  - simpl. rewrite Header_Set_canonical by done. rewrite dom_insert_L, dom_empty_L.
    set_solver.
  - pose proof (installed_configured _ _ _ Hw) as C.
    destruct (decide (signature (self w) = ""%string)) as [E|E].
    + by rewrite RoundTrip_unsigned.
    + assert (D : base64.DecodeString (secret (self w)) = ([], None))
        by (by rewrite (cfg_secret _ _ _ C)).
      rewrite (RoundTrip_signed w [] E D). simpl. rewrite !dom_insert_L. set_solver.
Qed.

(** X9.  The header map of an installed transport never holds other names
    than the key, timestamp and signature headers, so never more than three
    entries however many requests were sent; with signing off it holds one. *)
Theorem transport_header_map_never_grows
    (rt : http.RoundTripper) (data : DetectifyProviderModel) (t : transport) :
  installed rt data t →
  dom (Headers t) ⊆ authentication_headers
  ∧ (size (Headers t) <= 3)%nat
  ∧ (signature t = ""%string → size (Headers t) = 1%nat).
Proof.
  intros I. pose proof (installed_headers_dom _ _ _ I) as D. split; [exact D|]. split.
  - rewrite <- size_dom. apply subseteq_size in D.
    etrans; [exact D|]. unfold authentication_headers.
    rewrite !size_union, !size_singleton; [done|set_solver|set_solver].
  - intros E. rewrite (cfg_unsigned _ _ _ (installed_configured _ _ _ I) E).
    apply map_size_singleton.
Qed.

(** One send through an installed transport. *)
Lemma installed_step rt data (w : World) :
  installed rt data (self w) →
  let now := clock w (reads w) in
  ∃ out w',
    RoundTrip w = (Returned (rt out), w')
    ∧ installed rt data (self w')
    ∧ clock w' = clock w
    ∧ wire w' = wire w ++ [out]
    ∧ request w' = out
    ∧ out = set_Header (Headers (self w') ∪ http.Header_ (request w)) (request w)
    ∧ http.Header_ out !! X_Detectify_Key = Some [ValueString (APIKey data)]
    ∧ (signature (self w) = ""%string →
         self w' = self w ∧ reads w' = reads w ∧ stdout w' = stdout w)
    ∧ (signature (self w) ≠ ""%string →
         reads w' = S (reads w)
         ∧ stdout w' = stdout w ++ [Sprintf_value (request w) "" now]
         ∧ http.Header_ out !! X_Detectify_Timestamp
           = Some [strconv.FormatInt (time.Unix now)]
         ∧ http.Header_ out !! X_Detectify_Signature
           = Some [signature_with [] (request w) "" now]).
Proof.
  intros I now. pose proof (installed_configured _ _ _ I) as C.
  pose proof (installed_after_send rt data w I) as I'.
  destruct (decide (signature (self w) = ""%string)) as [E|E].
  - rewrite RoundTrip_unsigned in * by done. unfold delegate, stored in *. simpl in *.
    rewrite (cfg_Transport _ _ _ C). eexists _, _. split; [reflexivity|]. simpl.
    do 5 (split; [done|]). split; [apply lookup_union_Some_l, C|]. by split.
  - assert (D : base64.DecodeString (secret (self w)) = ([], None))
      by (by rewrite (cfg_secret _ _ _ C)).
    rewrite (RoundTrip_signed w [] E D) in *. unfold delegate, stored in *. simpl in *.
    rewrite (cfg_Transport _ _ _ C), (cfg_apiKey _ _ _ C) in *.
    eexists _, _. split; [reflexivity|]. simpl.
    do 5 (split; [done|]). split.
    { apply lookup_union_Some_l. rewrite !lookup_insert_ne by done. apply C. }
    split; [done|]. intros _. do 2 (split; [done|]). split.
    + apply lookup_union_Some_l. rewrite lookup_insert_ne by done.
      by rewrite lookup_insert_eq.
    + apply lookup_union_Some_l. by rewrite lookup_insert_eq.
Qed.

Lemma send_all_cons (req : http.Request) (rest : list http.Request) (w : World) r w1 rs w2 :
  RoundTrip (set_request req w) = (Returned r, w1) →
  send_all rest w1 = (Returned rs, w2) →
  send_all (req :: rest) w = (Returned (r :: rs), w2).
Proof.
  intros R Run. cbn [send_all]. unfold mbind, M_bind. rewrite R. by rewrite Run.
Qed.

Lemma run_installed rt data (reqs : list http.Request) (w : World) :
  installed rt data (self w) →
  let signing := ValueString (Signature data) ≠ ""%string in
  ∃ outs w',
    send_all reqs w = (Returned (map rt outs), w')
    ∧ installed rt data (self w')
    ∧ clock w' = clock w
    ∧ wire w' = wire w ++ outs
    ∧ (∀ i req, reqs !! i = Some req →
         ∃ out, outs !! i = Some out
           ∧ http.Method out = http.Method req
           ∧ http.URL_ out = http.URL_ req
           ∧ http.Body out = http.Body req
           ∧ http.Header_ out !! X_Detectify_Key = Some [ValueString (APIKey data)]
           ∧ (signing →
                http.Header_ out !! X_Detectify_Timestamp
                  = Some [strconv.FormatInt (time.Unix (clock w (reads w + i)%nat))]
                ∧ http.Header_ out !! X_Detectify_Signature
                  = Some [signature_with [] req "" (clock w (reads w + i)%nat)]))
    ∧ length outs = length reqs
    ∧ (¬ signing → self w' = self w ∧ reads w' = reads w ∧ stdout w' = stdout w)
    ∧ (signing → reads w' = (reads w + length reqs)%nat
                 ∧ length (stdout w') = (length (stdout w) + length reqs)%nat).
Proof.
  intros I signing. subst signing. revert w I.
  induction reqs as [|req rest IH]; intros w I.
  - exists [], w. rewrite app_nil_r, !Nat.add_0_r. by repeat split.
  - assert (I0 : installed rt data (self (set_request req w))) by done.
    destruct (installed_step rt data _ I0)
      as (out & w1 & R & I1 & Ck & Wi & _ & Eo & Ky & Off & On).
    simpl in Ck, Wi, Eo, Off, On.
    destruct (IH w1 I1) as (outs & w2 & Run & I2 & Ck2 & Wi2 & Each & Len & Off2 & On2).
    pose proof (cfg_signature _ _ _ (installed_configured _ _ _ I)) as Sg.
    exists (out :: outs), w2. split; [by apply (send_all_cons _ _ _ _ w1)|].
    split; [done|]. split; [congruence|].
    split; [by rewrite Wi2, Wi, <- app_assoc|]. split.
    { intros [|i] r H; simpl in H.
      - injection H as <-. exists out. split; [done|]. rewrite Eo at 1 2 3. simpl.
        do 4 (split; [done|]). intros Hs. rewrite Nat.add_0_r.
        apply On. by rewrite Sg.
      - destruct (Each i r H) as (o & Ho & M & U & B & K & T). exists o.
        split; [done|]. do 4 (split; [done|]). intros Hs. specialize (T Hs).
        rewrite Ck in T. destruct (On ltac:(by rewrite Sg)) as (Rd & _).
        rewrite Rd in T. by replace (reads w + S i)%nat with (S (reads w) + i)%nat by lia. }
    split; [simpl; by rewrite Len|]. split.
    + intros Hn. destruct (Off2 Hn) as (A & B & C).
      destruct Off as (A1 & B1 & C1).
      { rewrite Sg. by destruct (decide (ValueString (Signature data) = ""%string)). }
      split; [congruence|]. split; congruence.
    + intros Hs. destruct (On2 Hs) as [A B].
      destruct (On ltac:(by rewrite Sg)) as (Rd & So & _).
      rewrite A, B, Rd, So, length_app. simpl. lia.
Qed.

(** X10.  When a caller sends a list of requests one after the other through
    an installed transport, no send panics, the wrapped round-tripper
    receives exactly one request per send, in order, each with the method,
    URL and body of the caller's request and with the configured API key in
    [X-Detectify-Key], and the caller gets the round-tripper's results. *)
Theorem every_request_of_a_run_carries_the_key
    (rt : http.RoundTripper) (data : DetectifyProviderModel)
    (reqs : list http.Request) (w : World) :
  installed rt data (self w) →
  ∃ outs w',
    send_all reqs w = (Returned (map rt outs), w')
    ∧ wire w' = wire w ++ outs
    ∧ length outs = length reqs
    ∧ ∀ i req, reqs !! i = Some req →
        ∃ out, outs !! i = Some out
          ∧ http.Method out = http.Method req
          ∧ http.URL_ out = http.URL_ req
          ∧ http.Body out = http.Body req
          ∧ http.Header_ out !! X_Detectify_Key = Some [ValueString (APIKey data)].
Proof.
  intros I. destruct (run_installed rt data reqs w I)
    as (outs & w' & Run & _ & _ & Wi & Each & Len & _).
  exists outs, w'. do 3 (split; [done|]). intros i req H.
  destruct (Each i req H) as (out & Ho & M & U & B & K & _). by exists out.
Qed.

(** X11.  With signing on, the i-th request of such a run carries the
    timestamp of the i-th clock reading of the run and the signature over
    that reading and its own fields: the entries left in the transport's
    header map by an earlier send never reach a later request.  The run
    reads the clock once and prints one line per request. *)
Theorem each_signed_request_has_its_own_timestamp
    (rt : http.RoundTripper) (data : DetectifyProviderModel)
    (reqs : list http.Request) (w : World) :
  installed rt data (self w) →
  ValueString (Signature data) ≠ ""%string →
  ∃ outs w',
    send_all reqs w = (Returned (map rt outs), w')
    ∧ reads w' = (reads w + length reqs)%nat
    ∧ length (stdout w') = (length (stdout w) + length reqs)%nat
    ∧ ∀ i req, reqs !! i = Some req →
        ∃ out, outs !! i = Some out
          ∧ http.Header_ out !! X_Detectify_Timestamp
            = Some [strconv.FormatInt (time.Unix (clock w (reads w + i)%nat))]
          ∧ http.Header_ out !! X_Detectify_Signature
            = Some [signature_with [] req "" (clock w (reads w + i)%nat)].
Proof.
  intros I Hs. destruct (run_installed rt data reqs w I)
    as (outs & w' & Run & _ & _ & _ & Each & _ & _ & On).
  destruct (On Hs) as [Rd So].
  exists outs, w'. do 3 (split; [done|]). intros i req H.
  destruct (Each i req H) as (out & Ho & _ & _ & _ & _ & T).
  destruct (T Hs) as [A B]. by exists out.
Qed.

(** X12.  With signing off, a run of sends through an installed transport
    reads no clock, prints nothing and leaves the transport as it was. *)
Theorem key_mode_run_reads_no_clock_and_prints_nothing
    (rt : http.RoundTripper) (data : DetectifyProviderModel)
    (reqs : list http.Request) (w : World) :
  installed rt data (self w) →
  ValueString (Signature data) = ""%string →
  ∃ rs w',
    send_all reqs w = (Returned rs, w')
    ∧ self w' = self w ∧ reads w' = reads w ∧ stdout w' = stdout w
    ∧ clock w' = clock w.
Proof.
  intros I Hs. destruct (run_installed rt data reqs w I)
    as (outs & w' & Run & _ & Ck & _ & _ & _ & Off & _).
  destruct Off as (A & B & C); [by intros ?|].
  by exists (map rt outs), w'.
Qed.

(** X7.  On a signed send that does not fail, the clock is read once, and
    the decimal timestamp put in [X-Detectify-Timestamp] is the one inside
    the canonical message whose HMAC is put in [X-Detectify-Signature]. *)
Theorem signature_covers_the_timestamp_header (w : World) (key : list byte) :
  signature (self w) ≠ ""%string →
  base64.DecodeString (secret (self w)) = (key, None) →
  ∃ out w' stamp,
    RoundTrip w = (Returned (Transport (self w) out), w')
    ∧ delegated w = [out]
    ∧ reads w' = S (reads w)
    ∧ http.Header_ out !! X_Detectify_Timestamp = Some [stamp]
    ∧ http.Header_ out !! X_Detectify_Signature
      = Some [base64.EncodeToString
                (hmac.Sum key
                   (Bytes.of_string
                      (canonical_message (http.Method (request w))
                         (http.Path (http.URL_ (request w))) (apiKey (self w))
                         (time.Unix (clock w (reads w)))
                         (fmt.verb_s (http.Body (request w))))))]
    ∧ stamp = strconv.FormatInt (time.Unix (clock w (reads w))).
Proof.
  intros E D. unfold delegated. rewrite (RoundTrip_signed w key E D).
  unfold delegate, stored. simpl. eexists _, _, _. split; [reflexivity|]. simpl.
  split; [apply drop_app_length|]. split; [done|]. split; [|split; [|reflexivity]].
  - apply lookup_union_Some_l. rewrite lookup_insert_ne by done.
    by rewrite lookup_insert_eq.
  - apply lookup_union_Some_l. by rewrite lookup_insert_eq.
Qed.

(** X8.  Two signed sends through the same transport at the same clock
    reading, of requests with the same method, the same URL path and bodies
    that print alike, carry the same signature and timestamp: the headers,
    host, scheme and query of the request and the bytes of its body do not
    enter the signature. *)
Theorem signature_ignores_headers_query_host_and_payload
    (w1 w2 : World) (key : list byte) :
  self w1 = self w2 →
  clock w1 (reads w1) = clock w2 (reads w2) →
  http.Method (request w1) = http.Method (request w2) →
  http.Path (http.URL_ (request w1)) = http.Path (http.URL_ (request w2)) →
  fmt.verb_s (http.Body (request w1)) = fmt.verb_s (http.Body (request w2)) →
  signature (self w1) ≠ ""%string →
  base64.DecodeString (secret (self w1)) = (key, None) →
  ∃ out1 out2,
    delegated w1 = [out1] ∧ delegated w2 = [out2]
    ∧ http.Header_ out1 !! X_Detectify_Signature
      = http.Header_ out2 !! X_Detectify_Signature
    ∧ http.Header_ out1 !! X_Detectify_Timestamp
      = http.Header_ out2 !! X_Detectify_Timestamp
    ∧ is_Some (http.Header_ out1 !! X_Detectify_Signature).
Proof.
  intros Et Ec Em Ep Eb E D.
  assert (E2 : signature (self w2) ≠ ""%string) by (by rewrite <- Et).
  assert (D2 : base64.DecodeString (secret (self w2)) = (key, None)) by (by rewrite <- Et).
  unfold delegated. rewrite (RoundTrip_signed w1 key E D), (RoundTrip_signed w2 key E2 D2).
  unfold delegate, stored. simpl. rewrite !drop_app_length.
  eexists _, _. split; [reflexivity|]. split; [reflexivity|]. simpl.
  rewrite !(lookup_union_Some_l _ _ _ _ (lookup_insert_eq _ _ _)).
  assert (Ts : ∀ (h : http.Header) (s v : string) (m : http.Header),
            (<[X_Detectify_Signature := [s]]> (<[X_Detectify_Timestamp := [v]]> m) ∪ h)
              !! X_Detectify_Timestamp = Some [v]).
  { intros h s v m. apply lookup_union_Some_l. rewrite lookup_insert_ne by done.
    by rewrite lookup_insert_eq. }
  rewrite !Ts. unfold signature_with, Sprintf_value.
  rewrite Et, Ec, Em, Ep, Eb. by repeat split.
Qed.

(** X13.  Sending the same request again through an installed transport
    hands it to the wrapped round-tripper a second time with every header
    but the timestamp and the signature as after the first send (values are
    replaced, not accumulated), method, URL and body as the caller built
    them; with signing off the request is exactly as after the first send. *)
Theorem sending_again_rewrites_only_the_signing_headers
    (rt : http.RoundTripper) (data : DetectifyProviderModel) (w : World) :
  installed rt data (self w) →
  let w1 := (RoundTrip w).2 in
  let w2 := (RoundTrip w1).2 in
  wire w2 = wire w ++ [request w1; request w2]
  ∧ http.Method (request w2) = http.Method (request w)
  ∧ http.URL_ (request w2) = http.URL_ (request w)
  ∧ http.Body (request w2) = http.Body (request w)
  ∧ (∀ k, k ≠ X_Detectify_Timestamp → k ≠ X_Detectify_Signature →
          http.Header_ (request w2) !! k = http.Header_ (request w1) !! k)
  ∧ (ValueString (Signature data) = ""%string → request w2 = request w1).
Proof.
  intros I w1 w2.
  destruct (installed_step rt data w I)
    as (out & v1 & R & I1 & Ck & Wi & Rq & Eo & Ky & Off & On).
  assert (E1 : w1 = v1) by (subst w1; by rewrite R). clearbody w1. subst v1.
  destruct (installed_step rt data w1 I1)
    as (out2 & v2 & R2 & I2 & Ck2 & Wi2 & Rq2 & Eo2 & Ky2 & Off2 & On2).
  assert (E2 : w2 = v2) by (subst w2; by rewrite R2). clearbody w2. subst v2.
  pose proof (installed_configured _ _ _ I) as C.
  pose proof (installed_configured _ _ _ I1) as C1.
  pose proof (installed_configured _ _ _ I2) as C2.
  pose proof (installed_headers_dom _ _ _ I1) as Dm1.
  pose proof (installed_headers_dom _ _ _ I2) as Dm2.
  split; [by rewrite Wi2, Wi, Rq, Rq2, <- app_assoc|].
  rewrite Rq2, Eo2, Rq, Eo. simpl. do 3 (split; [done|]). split.
  - intros k H1 H2.
    destruct (decide (k = X_Detectify_Key)) as [->|H3].
    + by rewrite (lookup_union_Some_l _ _ _ _ (cfg_Key _ _ _ C2)),
                 (lookup_union_Some_l _ _ _ _ (cfg_Key _ _ _ C1)).
    + assert (N1 : Headers (self w1) !! k = None).
      { apply not_elem_of_dom. intros H. apply Dm1 in H.
        unfold authentication_headers in H. set_solver. }
      assert (N2 : Headers (self w2) !! k = None).
      { apply not_elem_of_dom. intros H. apply Dm2 in H.
        unfold authentication_headers in H. set_solver. }
      by rewrite (lookup_union_r _ _ _ N2).
  - intros Hs. rewrite <- (cfg_signature _ _ _ C1) in Hs.
    destruct (Off2 Hs) as (-> & _). unfold set_Header. simpl.
    by rewrite (assoc_L (∪)), (idemp_L (∪)).
Qed.

Lemma HasError_app (a b : list lifecycle.Diagnostic) :
  lifecycle.HasError (a ++ b) = lifecycle.HasError a || lifecycle.HasError b.
Proof. apply existsb_app. Qed.

Lemma HasError_elem (d : lifecycle.Diagnostic) (a : list lifecycle.Diagnostic) :
  d ∈ a → lifecycle.severity d = lifecycle.SeverityError → lifecycle.HasError a = true.
Proof.
  intros H E. apply existsb_exists. exists d. split; [by apply list_elem_of_In|].
  by apply bool_decide_eq_true.
Qed.

Lemma HasError_Append (a b : list lifecycle.Diagnostic) :
  lifecycle.HasError (lifecycle.Append a b) = lifecycle.HasError a || lifecycle.HasError b.
Proof.
  unfold lifecycle.Append. revert a. induction b as [|d b IH]; intros a; simpl.
  - by rewrite orb_false_r.
  - rewrite IH. case_bool_decide as H.
    + destruct (bool_decide (lifecycle.severity d = lifecycle.SeverityError)) eqn:E; [|done].
      apply bool_decide_eq_true in E. rewrite (HasError_elem d a H E). done.
    + rewrite HasError_app. simpl. by rewrite orb_false_r, orb_assoc.
Qed.

(** X14.  When the response already has an error diagnostic or reading the
    configuration reports one, [Configure] returns early: the default
    client's transport and the provider data of the response are left as
    they were, and the response has an error. *)
Theorem Configure_with_an_error_installs_nothing
    (rt : http.RoundTripper) (data : DetectifyProviderModel)
    (diags : list lifecycle.Diagnostic) (resp : lifecycle.ConfigureResponse)
    (p : lifecycle.Process) :
  lifecycle.HasError (lifecycle.Diagnostics resp) = true ∨ lifecycle.HasError diags = true →
  let r := lifecycle.Configure rt (data, diags) resp p in
  r.2 = p
  ∧ lifecycle.DataSourceData r.1 = lifecycle.DataSourceData resp
  ∧ lifecycle.ResourceData r.1 = lifecycle.ResourceData resp
  ∧ lifecycle.HasError (lifecycle.Diagnostics r.1) = true.
Proof.
  intros H r. subst r. unfold lifecycle.Configure. simpl.
  assert (E : lifecycle.HasError (lifecycle.Append (lifecycle.Diagnostics resp) diags) = true).
  { rewrite HasError_Append. destruct H as [-> | ->]; [done | by rewrite orb_true_r]. }
  by rewrite E.
Qed.

(** X15.  After two successful calls of [Configure], the provider data of
    both hold the same client, and that client sends through the transport
    of the second configuration: the transport of the first is replaced,
    not wrapped. *)
Theorem last_Configure_owns_the_shared_client
    (rt : http.RoundTripper) (data1 data2 : DetectifyProviderModel)
    (diags1 diags2 : list lifecycle.Diagnostic)
    (resp1 resp2 : lifecycle.ConfigureResponse) (p : lifecycle.Process) :
  lifecycle.HasError (lifecycle.Diagnostics resp1) = false →
  lifecycle.HasError diags1 = false →
  lifecycle.HasError (lifecycle.Diagnostics resp2) = false →
  lifecycle.HasError diags2 = false →
  let first := lifecycle.Configure rt (data1, diags1) resp1 p in
  let second := lifecycle.Configure rt (data2, diags2) resp2 first.2 in
  ∃ d1 d2,
    lifecycle.ResourceData first.1 = Some d1
    ∧ lifecycle.DataSourceData first.1 = Some d1
    ∧ lifecycle.ResourceData second.1 = Some d2
    ∧ lifecycle.DataSourceData second.1 = Some d2
    ∧ lifecycle.Signature d1 = ValueString (provider.Signature data1)
    ∧ lifecycle.Signature d2 = ValueString (provider.Signature data2)
    ∧ lifecycle.transport_of (lifecycle.Client d1) first.2 = Some (provider.Configure rt data1)
    ∧ lifecycle.transport_of (lifecycle.Client d1) second.2 = Some (provider.Configure rt data2)
    ∧ lifecycle.transport_of (lifecycle.Client d2) second.2 = Some (provider.Configure rt data2).
Proof.
  intros A1 B1 A2 B2 first second. subst first second. unfold lifecycle.Configure. simpl.
  assert (E1 : lifecycle.HasError (lifecycle.Append (lifecycle.Diagnostics resp1) diags1) = false)
    by (by rewrite HasError_Append, A1, B1).
  assert (E2 : lifecycle.HasError (lifecycle.Append (lifecycle.Diagnostics resp2) diags2) = false)
    by (by rewrite HasError_Append, A2, B2).
  rewrite E1. simpl. rewrite E2. simpl. eexists _, _. by repeat split.
Qed.

(** * The further theorems at concrete inputs *)

Lemma signature_shape_at_the_sample_secret :
  base64.DecodeString "c2VjcmV0" = (Bytes.of_string "secret", None)
  ∧ ∃ sig w',
      CalculateSignature (sample.at_path "/") "abc123" "c2VjcmV0" sample.instant
        (sample.world (sample.by_hand "c2VjcmV0") (sample.at_path "/"))
      = (Returned sig, w')
      ∧ String.length sig = 44%nat.
Proof.
  split; [reflexivity|].
  destruct (signature_is_base64_of_a_32_byte_digest (sample.at_path "/") "abc123"
              "c2VjcmV0" sample.instant (Bytes.of_string "secret")
              (sample.world (sample.by_hand "c2VjcmV0") (sample.at_path "/")) eq_refl)
    as (sig & w' & R & L & _).
  exists sig, w'. split; [exact R | exact L].
Defined.

Lemma offset_at_not_base64 :
  base64.DecodeString "not-base64!!" = ([], Some (base64.CorruptInputError 3))
  ∧ 0 <= 3 <= Z.of_nat (String.length "not-base64!!").
Proof.
  split; [reflexivity|].
  exact (CorruptInputError_offset_within_input "not-base64!!" [] 3 eq_refl).
Defined.

Lemma secret_with_line_breaks :
  strip_newlines ("c2Vj" +:+ String "010" ("cmV0" +:+ String "013" (String "010" "")))
  = strip_newlines "c2VjcmV0"
  ∧ same_outcome
      (base64.DecodeString
         ("c2Vj" +:+ String "010" ("cmV0" +:+ String "013" (String "010" ""))))
      (base64.DecodeString "c2VjcmV0").
Proof.
  split; [reflexivity|].
  exact (proj1 (newlines_in_the_secret_are_ignored
                  ("c2Vj" +:+ String "010" ("cmV0" +:+ String "013" (String "010" "")))
                  "c2VjcmV0" eq_refl)).
Defined.

Lemma zero_key_signs_as_the_empty_key :
  base64.DecodeString "" = ([], None)
  ∧ base64.DecodeString "AAAA" = ([] ++ replicate 3 x00, None)
  ∧ (length (@nil byte) + 3 <= 64)%nat
  ∧ CalculateSignature (sample.at_path "/") "abc123" "AAAA" sample.instant
      (sample.world (sample.by_hand "AAAA") (sample.at_path "/"))
    = CalculateSignature (sample.at_path "/") "abc123" "" sample.instant
        (sample.world (sample.by_hand "AAAA") (sample.at_path "/")).
Proof.
  assert (L : (length (@nil byte) + 3 <= 64)%nat) by (simpl; lia).
  split; [reflexivity|]. split; [reflexivity|]. split; [exact L|].
  exact (trailing_zero_bytes_of_the_key_do_not_count "" "AAAA" [] 3 eq_refl eq_refl L
           _ _ _ _).
Defined.

Lemma long_key_of_zero_bytes :
  base64.DecodeString (base64.EncodeToString (replicate 66 x00)) = (replicate 66 x00, None)
  ∧ base64.DecodeString (base64.EncodeToString (sha256.Sum256 (replicate 66 x00)))
    = (sha256.Sum256 (replicate 66 x00), None)
  ∧ (64 < length (replicate 66 x00))%nat
  ∧ CalculateSignature (sample.at_path "/") "abc123"
      (base64.EncodeToString (sha256.Sum256 (replicate 66 x00))) sample.instant
      (sample.world (sample.by_hand "") (sample.at_path "/"))
    = CalculateSignature (sample.at_path "/") "abc123"
        (base64.EncodeToString (replicate 66 x00)) sample.instant
        (sample.world (sample.by_hand "") (sample.at_path "/")).
Proof.
  assert (D1 : base64.DecodeString (base64.EncodeToString (replicate 66 x00))
               = (replicate 66 x00, None)) by (vm_compute; reflexivity).
  assert (D2 : base64.DecodeString (base64.EncodeToString (sha256.Sum256 (replicate 66 x00)))
               = (sha256.Sum256 (replicate 66 x00), None)) by (vm_compute; reflexivity).
  assert (L : (64 < length (replicate 66 x00))%nat) by (vm_compute; lia).
  split; [exact D1|]. split; [exact D2|]. split; [exact L|].
  exact (long_key_signs_as_its_digest _ _ _ D1 D2 L _ _ _ _).
Defined.

Lemma timestamp_header_at_the_sample_secret :
  signature (sample.by_hand "c2VjcmV0") ≠ ""%string
  ∧ base64.DecodeString (secret (sample.by_hand "c2VjcmV0"))
    = (Bytes.of_string "secret", None)
  ∧ ∃ out stamp,
      delegated (sample.world (sample.by_hand "c2VjcmV0") (sample.at_path "/")) = [out]
      ∧ http.Header_ out !! X_Detectify_Timestamp = Some [stamp]
      ∧ stamp = strconv.FormatInt 1700000000.
Proof.
  assert (E : signature (sample.by_hand "c2VjcmV0") ≠ ""%string) by discriminate.
  split; [exact E|]. split; [reflexivity|].
  destruct (signature_covers_the_timestamp_header
              (sample.world (sample.by_hand "c2VjcmV0") (sample.at_path "/"))
              (Bytes.of_string "secret") E eq_refl)
    as (out & w' & stamp & _ & D & _ & T & _ & S).
  exists out, stamp. split; [exact D|]. split; [exact T | exact S].
Defined.

Lemma signature_same_for_other_headers_and_payload :
  signature (sample.by_hand "c2VjcmV0") ≠ ""%string
  ∧ fmt.verb_s (http.reader "{}" [x01; x02]) = fmt.verb_s http.NoBody
  ∧ ∃ out1 out2,
      delegated (sample.world (sample.by_hand "c2VjcmV0")
                   (sample.assets sample.forged (http.reader "{}" [x01; x02]))) = [out1]
      ∧ delegated (sample.world (sample.by_hand "c2VjcmV0")
                     (sample.assets ∅ http.NoBody)) = [out2]
      ∧ http.Header_ out1 !! X_Detectify_Signature
        = http.Header_ out2 !! X_Detectify_Signature.
Proof.
  assert (E : signature (sample.by_hand "c2VjcmV0") ≠ ""%string) by discriminate.
  split; [exact E|]. split; [reflexivity|].
  destruct (signature_ignores_headers_query_host_and_payload
              (sample.world (sample.by_hand "c2VjcmV0")
                 (sample.assets sample.forged (http.reader "{}" [x01; x02])))
              (sample.world (sample.by_hand "c2VjcmV0") (sample.assets ∅ http.NoBody))
              (Bytes.of_string "secret") eq_refl eq_refl eq_refl eq_refl eq_refl E eq_refl)
    as (out1 & out2 & D1 & D2 & S & _).
  exists out1, out2. split; [exact D1|]. split; [exact D2 | exact S].
Defined.

Lemma header_map_of_the_configured_transport :
  installed sample.ok sample.hmac_mode (Configure sample.ok sample.hmac_mode)
  ∧ (size (Headers (Configure sample.ok sample.hmac_mode)) <= 3)%nat.
Proof.
  split; [constructor|].
  exact (proj1 (proj2 (transport_header_map_never_grows sample.ok sample.hmac_mode _
                         (installed_by_Configure _ _)))).
Defined.

Lemma run_of_two_requests_carries_the_key :
  installed sample.ok sample.key_mode
    (self (sample.world (Configure sample.ok sample.key_mode) (sample.at_path "/")))
  ∧ ∃ outs w',
      send_all [sample.at_path "/a"; sample.at_path "/b"]
        (sample.world (Configure sample.ok sample.key_mode) (sample.at_path "/"))
      = (Returned (map sample.ok outs), w')
      ∧ length outs = 2%nat.
Proof.
  split; [constructor|].
  destruct (every_request_of_a_run_carries_the_key sample.ok sample.key_mode
              [sample.at_path "/a"; sample.at_path "/b"]
              (sample.world (Configure sample.ok sample.key_mode) (sample.at_path "/"))
              (installed_by_Configure _ _))
    as (outs & w' & R & _ & L & _).
  exists outs, w'. split; [exact R | exact L].
Defined.

Lemma signed_run_of_two_requests_reads_the_clock_twice :
  installed sample.ok sample.hmac_mode
    (self (sample.world (Configure sample.ok sample.hmac_mode) (sample.at_path "/")))
  ∧ ValueString (provider.Signature sample.hmac_mode) ≠ ""%string
  ∧ ∃ outs w',
      send_all [sample.at_path "/a"; sample.at_path "/b"]
        (sample.world (Configure sample.ok sample.hmac_mode) (sample.at_path "/"))
      = (Returned (map sample.ok outs), w')
      ∧ reads w' = (0 + 2)%nat.
Proof.
  assert (E : ValueString (provider.Signature sample.hmac_mode) ≠ ""%string) by discriminate.
  split; [constructor|]. split; [exact E|].
  destruct (each_signed_request_has_its_own_timestamp sample.ok sample.hmac_mode
              [sample.at_path "/a"; sample.at_path "/b"]
              (sample.world (Configure sample.ok sample.hmac_mode) (sample.at_path "/"))
              (installed_by_Configure _ _) E)
    as (outs & w' & R & Rd & _).
  exists outs, w'. split; [exact R | exact Rd].
Defined.

Lemma key_mode_run_of_two_requests :
  installed sample.ok sample.key_mode
    (self (sample.world (Configure sample.ok sample.key_mode) (sample.at_path "/")))
  ∧ ValueString (provider.Signature sample.key_mode) = ""%string
  ∧ ∃ rs w',
      send_all [sample.at_path "/a"; sample.at_path "/b"]
        (sample.world (Configure sample.ok sample.key_mode) (sample.at_path "/"))
      = (Returned rs, w')
      ∧ reads w' = 0%nat.
Proof.
  split; [constructor|]. split; [reflexivity|].
  destruct (key_mode_run_reads_no_clock_and_prints_nothing sample.ok sample.key_mode
              [sample.at_path "/a"; sample.at_path "/b"]
              (sample.world (Configure sample.ok sample.key_mode) (sample.at_path "/"))
              (installed_by_Configure _ _) eq_refl)
    as (rs & w' & R & _ & Rd & _).
  exists rs, w'. split; [exact R | exact Rd].
Defined.

Lemma sending_the_sample_request_again :
  installed sample.ok sample.key_mode
    (self (sample.world (Configure sample.ok sample.key_mode) (sample.at_path "/")))
  ∧ http.Method
      (request (RoundTrip (RoundTrip (sample.world (Configure sample.ok sample.key_mode)
                                        (sample.at_path "/"))).2).2)
    = http.Method (sample.at_path "/").
Proof.
  split; [constructor|].
  exact (proj1 (proj2 (sending_again_rewrites_only_the_signing_headers
                         sample.ok sample.key_mode
                         (sample.world (Configure sample.ok sample.key_mode)
                            (sample.at_path "/"))
                         (installed_by_Configure _ _)))).
Defined.

Lemma Configure_with_an_unreadable_configuration :
  lifecycle.HasError
    [{| lifecycle.severity := lifecycle.SeverityError; lifecycle.summary := "bad";
        lifecycle.detail := "" |}] = true
  ∧ (lifecycle.Configure sample.ok
       (sample.hmac_mode,
        [{| lifecycle.severity := lifecycle.SeverityError; lifecycle.summary := "bad";
            lifecycle.detail := "" |}])
       {| lifecycle.Diagnostics := []; lifecycle.DataSourceData := None;
          lifecycle.ResourceData := None |}
       {| lifecycle.DefaultClient_Transport := None |}).2
    = {| lifecycle.DefaultClient_Transport := None |}.
Proof.
  split; [reflexivity|].
  exact (proj1 (Configure_with_an_error_installs_nothing sample.ok sample.hmac_mode
                  [{| lifecycle.severity := lifecycle.SeverityError;
                      lifecycle.summary := "bad"; lifecycle.detail := "" |}]
                  {| lifecycle.Diagnostics := []; lifecycle.DataSourceData := None;
                     lifecycle.ResourceData := None |}
                  {| lifecycle.DefaultClient_Transport := None |}
                  (or_intror eq_refl))).
Defined.

Lemma two_configurations_share_the_client :
  lifecycle.HasError [] = false
  ∧ ∃ d1,
      lifecycle.ResourceData
        (lifecycle.Configure sample.ok (sample.key_mode, [])
           {| lifecycle.Diagnostics := []; lifecycle.DataSourceData := None;
              lifecycle.ResourceData := None |}
           {| lifecycle.DefaultClient_Transport := None |}).1 = Some d1
      ∧ lifecycle.transport_of (lifecycle.Client d1)
          (lifecycle.Configure sample.ok (sample.hmac_mode, [])
             {| lifecycle.Diagnostics := []; lifecycle.DataSourceData := None;
                lifecycle.ResourceData := None |}
             (lifecycle.Configure sample.ok (sample.key_mode, [])
                {| lifecycle.Diagnostics := []; lifecycle.DataSourceData := None;
                   lifecycle.ResourceData := None |}
                {| lifecycle.DefaultClient_Transport := None |}).2).2
        = Some (Configure sample.ok sample.hmac_mode).
Proof.
  split; [reflexivity|].
  destruct (last_Configure_owns_the_shared_client sample.ok sample.key_mode
              sample.hmac_mode [] []
              {| lifecycle.Diagnostics := []; lifecycle.DataSourceData := None;
                 lifecycle.ResourceData := None |}
              {| lifecycle.Diagnostics := []; lifecycle.DataSourceData := None;
                 lifecycle.ResourceData := None |}
              {| lifecycle.DefaultClient_Transport := None |}
              eq_refl eq_refl eq_refl eq_refl)
    as (d1 & d2 & R1 & _ & _ & _ & _ & _ & _ & T & _).
  exists d1. split; [exact R1 | exact T].
Defined.
